(** * subnettoIp.py: random host address inside an IPv4 subnet

    A shallow embedding of [src/subnettoIp.py] (class [IPGenerator]) and of
    the parts of CPython 3.11 it calls ([re.match], [ipaddress.IPv4Network],
    [random.choice]), followed by the properties of the generator.

    Conventions.
    - A Python [str] is a [string]; the character [c] stands for the code
      point [nat_of_ascii c], so the model covers the strings whose code
      points are below 256.  In that range the decimal digits of [\d] are
      exactly ['0'..'9'].
    - A Python [int] is a [Z].
    - An exception is a value of an error type, returned through [result].
    - The generator object is the record [IPGenerator]; the state of the
      module level random source is threaded next to it. *)

From Stdlib Require Import ZArith List String Ascii Bool Arith Lia.
From Stdlib Require Import DecimalString.
Import ListNotations.

Open Scope string_scope.

(** ** Results of fallible calls *)

Inductive result (E A : Type) : Type :=
| Ok (a : A)
| Raise (e : E).

Arguments Ok {E A} a.
Arguments Raise {E A} e.

Definition bind {E A B} (r : result E A) (f : A -> result E B) : result E B :=
  match r with
  | Ok a => f a
  | Raise e => Raise e
  end.

Notation "'let*' x ':=' r 'in' k" := (bind r (fun x => k))
  (at level 10, x pattern, r at level 100, k at level 200).

(** ** Python builtins used by the program and by the library *)

Module Py.

Definition ord (c : ascii) : nat := nat_of_ascii c.

Definition newline : ascii := ascii_of_nat 10.

(** [c.isascii()] for one character. *)
Definition isascii_char (c : ascii) : bool := (ord c <? 128)%nat.

(** The decimal digits (Unicode category Nd) below 256: ['0'..'9']. *)
Definition isdecimal_char (c : ascii) : bool :=
  ((48 <=? ord c) && (ord c <=? 57))%nat.

(** [c.isdigit()] for one character: below 256 the digits are the decimal
    digits and the superscripts two, three and one. *)
Definition isdigit_char (c : ascii) : bool :=
  isdecimal_char c
  || (ord c =? 178)%nat || (ord c =? 179)%nat || (ord c =? 185)%nat.

Fixpoint all_chars (p : ascii -> bool) (s : string) : bool :=
  match s with
  | EmptyString => true
  | String c s' => p c && all_chars p s'
  end.

(** [s.isascii()]: true on the empty string. *)
Definition isascii (s : string) : bool := all_chars isascii_char s.

(** [s.isdigit()]: false on the empty string. *)
Definition isdigit (s : string) : bool :=
  match s with
  | EmptyString => false
  | _ => all_chars isdigit_char s
  end.

(** [c in s] for one character. *)
Fixpoint contains (c : ascii) (s : string) : bool :=
  match s with
  | EmptyString => false
  | String a s' => Ascii.eqb a c || contains c s'
  end.

(** [s.split(sep)] for a one character separator: never the empty list. *)
Fixpoint split (sep : ascii) (s : string) : list string :=
  match s with
  | EmptyString => [EmptyString]
  | String c s' =>
      if Ascii.eqb c sep then EmptyString :: split sep s'
      else match split sep s' with
           | [] => [String c EmptyString]
           | w :: ws => String c w :: ws
           end
  end.

(** [sep.join(l)]. *)
Fixpoint join (sep : string) (l : list string) : string :=
  match l with
  | [] => EmptyString
  | [w] => w
  | w :: ws => w ++ sep ++ join sep ws
  end.

Definition digit_value (c : ascii) : Z := (Z.of_nat (ord c) - 48)%Z.

Fixpoint int_digits (acc : Z) (s : string) : Z :=
  match s with
  | EmptyString => acc
  | String c s' => int_digits (10 * acc + digit_value c)%Z s'
  end.

(** [int(s, 10)] on the strings both callers pass: they test
    [s.isascii() and s.isdigit()] first, which leaves non-empty strings of
    ['0'..'9'] (leading zeros are read as decimal).  [None] is the
    [ValueError] of any other text; signs, blanks and underscores, which
    [int] itself accepts, are excluded by that test. *)
Definition int (s : string) : option Z :=
  if isascii s && isdigit s then Some (int_digits 0 s) else None.

(** [str(n)]: the decimal text of an integer. *)
Definition str (n : Z) : string := NilZero.string_of_int (Z.to_int n).

(** [n.bit_length()]. *)
Definition bit_length (n : Z) : Z :=
  if (n =? 0)%Z then 0%Z else (Z.log2 (Z.abs n) + 1)%Z.

(** [range(lo, hi)] as the list of its values. *)
Definition range (lo hi : Z) : list Z :=
  map (fun i => lo + Z.of_nat i)%Z (seq 0 (Z.to_nat (hi - lo))).

(** [c.isspace()] for one character: below 256 the whitespace characters
    are 9-13, 28-32, 133 and 160. *)
Definition isspace_char (c : ascii) : bool :=
  ((9 <=? ord c) && (ord c <=? 13))%nat
  || ((28 <=? ord c) && (ord c <=? 32))%nat
  || (ord c =? 133)%nat || (ord c =? 160)%nat.

(** [s.lstrip()]. *)
Fixpoint lstrip (s : string) : string :=
  match s with
  | EmptyString => EmptyString
  | String c s' => if isspace_char c then lstrip s' else s
  end.

(** [s.rstrip()]. *)
Fixpoint rstrip (s : string) : string :=
  match s with
  | EmptyString => EmptyString
  | String c s' =>
      match rstrip s' with
      | EmptyString => if isspace_char c then EmptyString
                       else String c EmptyString
      | r => String c r
      end
  end.

(** [s.strip()]: whitespace removed at both ends. *)
Definition strip (s : string) : string := rstrip (lstrip s).

(** [c.lower()] for one character: below 256 the upper case letters are
    65-90, 192-214 and 216-222, each 32 below its lower case letter. *)
Definition lower_char (c : ascii) : ascii :=
  if ((65 <=? ord c) && (ord c <=? 90))%nat
     || ((192 <=? ord c) && (ord c <=? 214))%nat
     || ((216 <=? ord c) && (ord c <=? 222))%nat
  then ascii_of_nat (ord c + 32)
  else c.

(** [s.lower()]. *)
Fixpoint lower (s : string) : string :=
  match s with
  | EmptyString => EmptyString
  | String c s' => String (lower_char c) (lower s')
  end.

End Py.

(** ** Regular expressions: the fragment of [re] used by [validate_subnet] *)

Module re.

Inductive pattern : Type :=
| Bol                                   (* ^ *)
| Eol                                   (* $ *)
| Digit                                 (* \d *)
| Lit (c : ascii)                       (* one literal character *)
| Cat (p q : pattern)                   (* p q *)
| Repeat (lo hi : nat) (p : pattern).   (* p{lo,hi}; p{n} is p{n,n} *)

(** [$] without MULTILINE: at the end of the text, or just before a
    newline that is the last character of the text. *)
Definition at_eol (rest : string) : bool :=
  match rest with
  | EmptyString => true
  | String c EmptyString => Ascii.eqb c Py.newline
  | _ => false
  end.

(** Backtracking matcher.  [pos] is the number of characters consumed so
    far, [s] the text that is left, and [k] what has to match after [p]. *)
Fixpoint run (p : pattern) (pos : nat) (s : string)
         (k : nat -> string -> bool) {struct p} : bool :=
  match p with
  | Bol => (pos =? 0)%nat && k pos s
  | Eol => at_eol s && k pos s
  | Digit =>
      match s with
      | String c s' => Py.isdecimal_char c && k (S pos) s'
      | EmptyString => false
      end
  | Lit a =>
      match s with
      | String c s' => Ascii.eqb c a && k (S pos) s'
      | EmptyString => false
      end
  | Cat p1 p2 => run p1 pos s (fun pos' s' => run p2 pos' s' k)
  | Repeat lo hi p1 =>
      (fix rep (lo hi pos : nat) (s : string) {struct hi} : bool :=
         match hi with
         | O => (lo =? 0)%nat && k pos s
         | S hi' =>
             run p1 pos s (fun pos' s' => rep (pred lo) hi' pos' s')
             || ((lo =? 0)%nat && k pos s)
         end) lo hi pos s
  end.

(** [re.match(p, s)] seen as a truth value: a match object exists iff the
    pattern matches a prefix of [s] from position 0. *)
Definition match_ (p : pattern) (s : string) : bool :=
  run p 0 s (fun _ _ => true).

End re.

(** ** The [ipaddress] module: IPv4 addresses and networks *)

Module ipaddress.

Open Scope Z_scope.

Definition IPV4LENGTH : Z := 32.
Definition _ALL_ONES : Z := 2 ^ IPV4LENGTH - 1.
Definition _max_prefixlen : Z := IPV4LENGTH.

(** The exceptions of the module.  [AddressValueError] and
    [NetmaskValueError] are subclasses of [ValueError]; each constructor
    is one [raise] of the library and carries the text it reports. *)
Inductive OctetError : Type :=
| EmptyOctet
| OnlyDecimalDigits (octet_str : string)
| AtMost3Characters (octet_str : string)
| LeadingZeros (octet_str : string)
| OctetTooLarge (octet_int : Z).

Inductive AddressValueError : Type :=
| AddressEmpty
| Expected4Octets (ip_str : string)
| InOctet (exc : OctetError) (ip_str : string)
| UnexpectedSlash (address : string)
| OnlyOneSlash (address : string).

Inductive NetmaskValueError : Type :=
| NotAValidNetmask (netmask_str : string).

Inductive ValueError : Type :=
| AddressError (e : AddressValueError)
| NetmaskError (e : NetmaskValueError)
| HostBitsSet (address : string).

(** An [IPv4Address] is its integer [_ip]. *)
Definition IPv4Address : Type := Z.

Definition _parse_octet (octet_str : string) : result OctetError Z :=
  if String.eqb octet_str "" then Raise EmptyOctet
  else if negb (Py.isascii octet_str && Py.isdigit octet_str)
  then Raise (OnlyDecimalDigits octet_str)
  else if (3 <? String.length octet_str)%nat
  then Raise (AtMost3Characters octet_str)
  else if negb (String.eqb octet_str "0")
          && match String.get 0 octet_str with
             | Some c => Ascii.eqb c "0"%char
             | None => false
             end
  then Raise (LeadingZeros octet_str)
  else match Py.int octet_str with
       | None => Raise (OnlyDecimalDigits octet_str)
       | Some octet_int =>
           if 255 <? octet_int then Raise (OctetTooLarge octet_int)
           else Ok octet_int
       end.

(** [map(cls._parse_octet, octets)] consumed from the left: the first
    octet that fails raises. *)
Fixpoint parse_octets (octets : list string) : result OctetError (list Z) :=
  match octets with
  | [] => Ok []
  | o :: os =>
      let* b := _parse_octet o in
      let* bs := parse_octets os in
      Ok (b :: bs)
  end.

(** [int.from_bytes(bs, 'big')]. *)
Definition from_bytes (bs : list Z) : Z :=
  fold_left (fun acc b => 256 * acc + b) bs 0.

(** [n.to_bytes(4, 'big')], for [0 <= n < 2 ^ 32]: the library only
    converts addresses, which are in that range. *)
Definition to_bytes4 (n : Z) : list Z :=
  [Z.shiftr n 24 mod 256; Z.shiftr n 16 mod 256;
   Z.shiftr n 8 mod 256; n mod 256].

Definition _ip_int_from_string (ip_str : string)
  : result AddressValueError Z :=
  if String.eqb ip_str "" then Raise AddressEmpty
  else
    let octets := Py.split "."%char ip_str in
    if negb (List.length octets =? 4)%nat then Raise (Expected4Octets ip_str)
    else match parse_octets octets with
         | Ok bs => Ok (from_bytes bs)
         | Raise exc => Raise (InOctet exc ip_str)
         end.

Definition _string_from_ip_int (ip_int : Z) : string :=
  Py.join "." (map Py.str (to_bytes4 ip_int)).

(** [IPv4Address(address)] for a [str] argument. *)
Definition IPv4Address_of_str (address : string)
  : result AddressValueError IPv4Address :=
  if Py.contains "/"%char address then Raise (UnexpectedSlash address)
  else _ip_int_from_string address.

(** [str(a)] for an [IPv4Address]. *)
Definition str_of_address (a : IPv4Address) : string :=
  _string_from_ip_int a.

Definition _ip_int_from_prefix (prefixlen : Z) : Z :=
  Z.lxor _ALL_ONES (Z.shiftr _ALL_ONES prefixlen).

Definition _count_righthand_zero_bits (number bits : Z) : Z :=
  if number =? 0 then bits
  else Z.min bits
         (Py.bit_length (Z.land (Z.lnot number) (number - 1))).

(** [None] is the plain [ValueError] ("mixes zeroes & ones"), which every
    caller catches. *)
Definition _prefix_from_ip_int (ip_int : Z) : option Z :=
  let trailing_zeroes := _count_righthand_zero_bits ip_int _max_prefixlen in
  let prefixlen := _max_prefixlen - trailing_zeroes in
  let leading_ones := Z.shiftr ip_int trailing_zeroes in
  let all_ones := Z.shiftl 1 prefixlen - 1 in
  if negb (leading_ones =? all_ones) then None else Some prefixlen.

Definition _report_invalid_netmask {A} (netmask_str : string)
  : result NetmaskValueError A :=
  Raise (NotAValidNetmask netmask_str).

Definition _prefix_from_prefix_string (prefixlen_str : string)
  : result NetmaskValueError Z :=
  if negb (Py.isascii prefixlen_str && Py.isdigit prefixlen_str)
  then _report_invalid_netmask prefixlen_str
  else match Py.int prefixlen_str with
       | None => _report_invalid_netmask prefixlen_str
       | Some prefixlen =>
           if negb ((0 <=? prefixlen) && (prefixlen <=? _max_prefixlen))
           then _report_invalid_netmask prefixlen_str
           else Ok prefixlen
       end.

Definition _prefix_from_ip_string (ip_str : string)
  : result NetmaskValueError Z :=
  match _ip_int_from_string ip_str with
  | Raise _ => _report_invalid_netmask ip_str
  | Ok ip_int =>
      match _prefix_from_ip_int ip_int with
      | Some prefixlen => Ok prefixlen
      | None =>
          match _prefix_from_ip_int (Z.lxor ip_int _ALL_ONES) with
          | Some prefixlen => Ok prefixlen
          | None => _report_invalid_netmask ip_str
          end
      end
  end.

(** The second component of [_split_addr_prefix]: the text after the
    slash, or the integer [_max_prefixlen] when there is no slash. *)
Inductive mask_arg : Type :=
| MaskStr (s : string)
| MaskInt (n : Z).

(** [_make_netmask(arg)]: the pair (netmask, prefixlen).  The cache of the
    library only memoises this function. *)
Definition _make_netmask (arg : mask_arg)
  : result NetmaskValueError (IPv4Address * Z) :=
  let* prefixlen :=
    match arg with
    | MaskInt prefixlen =>
        if negb ((0 <=? prefixlen) && (prefixlen <=? _max_prefixlen))
        then _report_invalid_netmask (Py.str prefixlen)
        else Ok prefixlen
    | MaskStr s =>
        match _prefix_from_prefix_string s with
        | Ok prefixlen => Ok prefixlen
        | Raise _ => _prefix_from_ip_string s
        end
    end in
  Ok (_ip_int_from_prefix prefixlen, prefixlen).

Definition _split_optional_netmask (address : string)
  : result AddressValueError (list string) :=
  let addr := Py.split "/"%char address in
  if (2 <? List.length addr)%nat then Raise (OnlyOneSlash address)
  else Ok addr.

Definition _split_addr_prefix (address : string)
  : result AddressValueError (string * mask_arg) :=
  let* address' := _split_optional_netmask address in
  match address' with
  | [addr; mask] => Ok (addr, MaskStr mask)
  | addr :: _ => Ok (addr, MaskInt _max_prefixlen)
  | [] => Ok (EmptyString, MaskInt _max_prefixlen)
  end.

(** An [IPv4Network] object.  [addr] is the address text captured by the
    closure that replaces [hosts] on a /32 network. *)
Record IPv4Network : Type := mkIPv4Network {
  network_address : IPv4Address;
  netmask : IPv4Address;
  _prefixlen : Z;
  addr : string
}.

Definition lift_address {A} (r : result AddressValueError A)
  : result ValueError A :=
  match r with Ok a => Ok a | Raise e => Raise (AddressError e) end.

Definition lift_netmask {A} (r : result NetmaskValueError A)
  : result ValueError A :=
  match r with Ok a => Ok a | Raise e => Raise (NetmaskError e) end.

(** [IPv4Network(address, strict)] for a [str] argument. *)
Definition IPv4Network_of_str (address : string) (strict : bool)
  : result ValueError IPv4Network :=
  let* (addr, mask) := lift_address (_split_addr_prefix address) in
  let* network_address := lift_address (IPv4Address_of_str addr) in
  let* (netmask, prefixlen) := lift_netmask (_make_netmask mask) in
  let packed := network_address in
  if negb (Z.land packed netmask =? packed) then
    if strict then Raise (HostBitsSet address)
    else Ok (mkIPv4Network (Z.land packed netmask) netmask prefixlen addr)
  else Ok (mkIPv4Network network_address netmask prefixlen addr).

Definition hostmask (n : IPv4Network) : IPv4Address :=
  Z.lxor (netmask n) _ALL_ONES.

Definition broadcast_address (n : IPv4Network) : IPv4Address :=
  Z.lor (network_address n) (hostmask n).

(** [network.__iter__()]: every address of the block. *)
Definition iter (n : IPv4Network) : list IPv4Address :=
  Py.range (network_address n) (broadcast_address n + 1).

(** [list(network.hosts())].  The constructor rebinds [hosts] to
    [__iter__] on a /31 and (since CPython 3.9) to
    [lambda: [IPv4Address(addr)]] on a /32; otherwise the class method
    runs, which leaves out the network and the broadcast address. *)
Definition hosts (n : IPv4Network)
  : result AddressValueError (list IPv4Address) :=
  if _prefixlen n =? _max_prefixlen - 1 then Ok (iter n)
  else if _prefixlen n =? _max_prefixlen then
    let* a := IPv4Address_of_str (addr n) in Ok [a]
  else Ok (Py.range (network_address n + 1) (broadcast_address n)).

End ipaddress.

(** ** The [random] module: the source behind [random.choice] *)

(** [_randbelow(n)] returns, for [n > 0], an integer in [[0, n)] and moves
    the generator on.  Nothing else about the generator is used. *)
Class RandomSource : Type := {
  rng_state : Type;
  _randbelow : nat -> rng_state -> nat * rng_state;
  _randbelow_lt : forall n g, (0 < n)%nat -> (fst (_randbelow n g) < n)%nat
}.

Module random.

(** [random.choice(seq)] on a non-empty [seq]: [seq[_randbelow(len(seq))]].
    [d] fills the out-of-range case of [nth], which [_randbelow_lt]
    excludes; the caller passes an element of [seq]. *)
Definition choice {R : RandomSource} {A} (d : A) (seq : list A)
           (g : rng_state) : A * rng_state :=
  let (i, g') := _randbelow (List.length seq) g in
  (nth i seq d, g').

(** A concrete source for running the program: a counter, reduced modulo
    the bound. *)
Definition counter_randbelow (n : nat) (g : nat) : nat * nat :=
  (g mod n, S g)%nat.

Definition counter_randbelow_lt (n g : nat) (H : (0 < n)%nat)
  : (fst (counter_randbelow n g) < n)%nat :=
  Nat.mod_upper_bound g n (proj2 (Nat.neq_0_lt_0 n) H).

Definition counter : RandomSource :=
  {| rng_state := nat;
     _randbelow := counter_randbelow;
     _randbelow_lt := counter_randbelow_lt |}.

End random.

(** ** subnettoIp.py *)

(** The three [raise SubnetError(...)] of [generate_random_ip], by line:
    55 ("Invalid subnet format. ..."), 62 ("No usable hosts in subnet ...")
    and 69 ("Invalid subnet: ..." around the library's [ValueError]). *)
Inductive SubnetError : Type :=
| InvalidFormat
| NoUsableHosts (subnet : string)
| InvalidSubnet (e : ipaddress.ValueError).

(** The fixed head of the message of each error. *)
Definition message_head (e : SubnetError) : string :=
  match e with
  | InvalidFormat => "Invalid subnet format. Use notation like '192.168.1.0/24'"
  | NoUsableHosts subnet => "No usable hosts in subnet " ++ subnet
  | InvalidSubnet _ => "Invalid subnet: "
  end.

(** [self.history]: (subnet, generated_ip) pairs, oldest first. *)
Record IPGenerator : Type := mkIPGenerator {
  history : list (string * string)
}.

(** [IPGenerator()]: [__init__] starts with an empty history. *)
Definition __init__ : IPGenerator := mkIPGenerator [].

(** [r'^(\d{1,3}\.){3}\d{1,3}/\d{1,2}$'] *)
Definition subnet_pattern : re.pattern :=
  re.Cat re.Bol
    (re.Cat (re.Repeat 3 3
               (re.Cat (re.Repeat 1 3 re.Digit) (re.Lit "."%char)))
       (re.Cat (re.Repeat 1 3 re.Digit)
          (re.Cat (re.Lit "/"%char)
             (re.Cat (re.Repeat 1 2 re.Digit) re.Eol)))).

Definition validate_subnet (subnet : string) : bool :=
  re.match_ subnet_pattern subnet.

Section Generator.

Context {R : RandomSource}.

(** [generate_random_ip(self, subnet)]: the value returned or the
    [SubnetError] raised, the generator afterwards and the random source
    afterwards. *)
Definition generate_random_ip (self : IPGenerator) (subnet : string)
           (g : rng_state)
  : result SubnetError string * IPGenerator * rng_state :=
  if negb (validate_subnet subnet) then (Raise InvalidFormat, self, g)
  else
    match ipaddress.IPv4Network_of_str subnet false with
    | Raise e => (Raise (InvalidSubnet e), self, g)
    | Ok network =>
        match ipaddress.hosts network with
        | Raise e =>
            (Raise (InvalidSubnet (ipaddress.AddressError e)), self, g)
        | Ok ip_range =>
            match ip_range with
            | [] => (Raise (NoUsableHosts subnet), self, g)
            | first :: _ =>
                let (ip, g') := random.choice first ip_range g in
                let random_ip := ipaddress.str_of_address ip in
                (Ok random_ip,
                 mkIPGenerator (history self ++ [(subnet, random_ip)]),
                 g')
            end
        end
    end.

(** [get_history(self)]: the list held by the generator (the very object,
    not a copy). *)
Definition get_history (self : IPGenerator) : list (string * string) :=
  history self.

(** [clear_history(self)]. *)
Definition clear_history (self : IPGenerator) : IPGenerator :=
  mkIPGenerator [].

End Generator.

(** ** The clipboard behind [pyperclip.copy] *)

(** [pyperclip.copy(text)] either returns or raises some [Exception]
    (no clipboard mechanism, a failing helper program); either way the
    platform clipboard may have changed.  [Raise] carries the text of the
    exception. *)
Class Pyperclip : Type := {
  clipboard_state : Type;
  pyperclip_copy :
    string -> clipboard_state -> result string unit * clipboard_state
}.

Module pyperclip.

(** A clipboard that works: it holds the last text copied. *)
Definition holding : Pyperclip :=
  {| clipboard_state := option string;
     pyperclip_copy := fun text _ => (Ok tt, Some text) |}.

(** A platform without a clipboard: every copy raises. *)
Definition missing : Pyperclip :=
  {| clipboard_state := unit;
     pyperclip_copy := fun _ cb => (Raise "no copy/paste mechanism", cb) |}.

End pyperclip.

(** ** The interactive loop *)

(** What [input()] meets on standard input: a line, without its newline, or
    Ctrl-C while it waits.  When the lines are used up, standard input is at
    its end and [input()] raises [EOFError]. *)
Inductive stdin_event : Type :=
| Line (text : string)
| KeyboardInterrupt.

(** What the program writes, one constructor per [print] (or prompt) of
    [main] with the values it formats in.  The lines of lines 118, 137 and
    142 hold text outside the strings modelled here (an arrow, the message
    of a library exception), so every line is kept as an event. *)
Inductive printed : Type :=
| Banner                                  (* lines 101-103 *)
| Prompt                                  (* line 107, written by input() *)
| Farewell                                (* line 110 *)
| HistoryHeader                           (* line 116 *)
| HistoryLine (subnet ip : string)        (* line 118 *)
| NoHistory                               (* line 120 *)
| HistoryCleared                          (* line 125 *)
| RandomIp (user_input random_ip : string) (* line 129 *)
| Copied                                  (* line 132 *)
| CopyWarning                             (* line 134 *)
| Error (e : SubnetError)                 (* line 137 *)
| Interrupted                             (* line 139 *)
| UnexpectedError (message : string).     (* line 142 *)

(** Whether the [while True] loop goes round again. *)
Inductive control : Type :=
| Continue
| Break.

Section Main.

Context {R : RandomSource} {C : Pyperclip}.

(** [copy_to_clipboard(text)]: [True] when [pyperclip.copy] returned,
    [False] when it raised; it raises nothing itself. *)
Definition copy_to_clipboard (text : string) (cb : clipboard_state)
  : bool * clipboard_state :=
  match pyperclip_copy text cb with
  | (Ok _, cb') => (true, cb')
  | (Raise _, cb') => (false, cb')
  end.

(** The process of [main]: its generator, the random source, the
    clipboard, what is left on standard input and what has been printed,
    oldest first. *)
Record Process : Type := mkProcess {
  generator : IPGenerator;
  random_state : rng_state;
  clipboard : clipboard_state;
  stdin : list stdin_event;
  stdout : list printed
}.

Definition print (p : printed) (w : Process) : Process :=
  mkProcess (generator w) (random_state w) (clipboard w) (stdin w)
    (stdout w ++ [p]).

Definition set_stdin (rest : list stdin_event) (w : Process) : Process :=
  mkProcess (generator w) (random_state w) (clipboard w) rest (stdout w).

Definition set_generator (self : IPGenerator) (g : rng_state) (w : Process)
  : Process :=
  mkProcess self g (clipboard w) (stdin w) (stdout w).

Definition set_clipboard (cb : clipboard_state) (w : Process) : Process :=
  mkProcess (generator w) (random_state w) cb (stdin w) (stdout w).

(** The [for subnet, ip in history: print(...)] of line 117. *)
Definition print_history (history : list (string * string)) (w : Process)
  : Process :=
  fold_left (fun w entry => print (HistoryLine (fst entry) (snd entry)) w)
    history w.

(** One turn of the [while True] loop, lines 106-142. *)
Definition iteration (w : Process) : control * Process :=
  let w := print Prompt w in
  match stdin w with
  | [] =>
      (* EOFError from input(), caught by [except Exception] *)
      (Continue, print (UnexpectedError "EOF when reading a line") w)
  | KeyboardInterrupt :: rest =>
      (Break, print Interrupted (set_stdin rest w))
  | Line text :: rest =>
      let w := set_stdin rest w in
      let user_input := Py.lower (Py.strip text) in
      if String.eqb user_input "exit" then (Break, print Farewell w)
      else if String.eqb user_input "history" then
        match get_history (generator w) with
        | [] => (Continue, print NoHistory w)
        | history => (Continue, print_history history (print HistoryHeader w))
        end
      else if String.eqb user_input "clear" then
        (Continue,
         print HistoryCleared
           (set_generator (clear_history (generator w)) (random_state w) w))
      else
        match generate_random_ip (generator w) user_input (random_state w)
        with
        | (Ok random_ip, self', g') =>
            let w := print (RandomIp user_input random_ip)
                       (set_generator self' g' w) in
            let (copied, cb') := copy_to_clipboard random_ip (clipboard w) in
            (Continue,
             print (if copied then Copied else CopyWarning)
               (set_clipboard cb' w))
        | (Raise e, self', g') =>
            (Continue, print (Error e) (set_generator self' g' w))
        end
  end.

(** The loop, for at most [turns] turns: [Break] when it has left the
    loop, [Continue] when it is still in it after [turns] turns. *)
Fixpoint loop (turns : nat) (w : Process) : control * Process :=
  match turns with
  | O => (Continue, w)
  | S turns' =>
      match iteration w with
      | (Break, w') => (Break, w')
      | (Continue, w') => loop turns' w'
      end
  end.

(** [main()], observed for at most [turns] turns of its loop: a fresh
    generator, the banner, then the loop. *)
Definition main (turns : nat) (g : rng_state) (cb : clipboard_state)
           (input : list stdin_event) : control * Process :=
  loop turns (print Banner (mkProcess __init__ g cb input [])).

End Main.

(** ** The lexical shape, in the words of the specification *)

(** A group of one to [n] decimal digits. *)
Definition digits_group (n : nat) (w : string) : bool :=
  ((1 <=? String.length w) && (String.length w <=? n))%nat
  && Py.all_chars Py.isdecimal_char w.

(** "Four 1-3 digit dot-separated groups followed by [/] and 1-2 digits",
    read off the text itself: cut at the slash, then at the dots. *)
Definition lexical_shape (s : string) : bool :=
  match Py.split "/"%char s with
  | [quad; pfx] =>
      match Py.split "."%char quad with
      | [a; b; c; d] =>
          digits_group 3 a && digits_group 3 b
          && digits_group 3 c && digits_group 3 d
          && digits_group 2 pfx
      | _ => false
      end
  | _ => false
  end.

(** The dotted quad [a.b.c.d]. *)
Definition quad_text (a b c d : string) : string :=
  a ++ "." ++ b ++ "." ++ c ++ "." ++ d.

(** The text [a.b.c.d/p]. *)
Definition cidr_text (a b c d p : string) : string :=
  a ++ "." ++ b ++ "." ++ c ++ "." ++ d ++ "/" ++ p.

(** ** Vocabulary for the statements *)

(** What the constructor establishes: [a] is the address written in the
    text, the prefix length is in range, the netmask is the one of the
    prefix and the network address is [a] masked. *)
Record parsed_network (net : ipaddress.IPv4Network) (a : Z) : Prop := {
  address_text : ipaddress.IPv4Address_of_str (ipaddress.addr net) = Ok a;
  address_range : (0 <= a < 2 ^ 32)%Z;
  prefix_range : (0 <= ipaddress._prefixlen net <= 32)%Z;
  netmask_of_prefix :
    ipaddress.netmask net
    = ipaddress._ip_int_from_prefix (ipaddress._prefixlen net);
  address_masked :
    ipaddress.network_address net = Z.land a (ipaddress.netmask net)
}.

(** [x] is an address of the block of [net]: masking it gives the network
    address. *)
Definition in_block (net : ipaddress.IPv4Network) (x : Z) : Prop :=
  (0 <= x < 2 ^ 32)%Z
  /\ Z.land x (ipaddress.netmask net) = ipaddress.network_address net.

(** A byte prints as a group of one to three digits that parses back. *)
Definition byte_text_ok (v : Z) : bool :=
  digits_group 3 (Py.str v)
  && match ipaddress._parse_octet (Py.str v) with
     | Ok w => (w =? v)%Z
     | Raise _ => false
     end.

(** A prefix length prints as a group of one or two digits that parses
    back. *)
Definition prefix_text_ok (p : Z) : bool :=
  digits_group 2 (Py.str p)
  && match ipaddress._prefix_from_prefix_string (Py.str p) with
     | Ok q => (q =? p)%Z
     | Raise _ => false
     end.

(** [str(network)]: the base address, a slash and the prefix length. *)
Definition canonical_text (net : ipaddress.IPv4Network) : string :=
  ipaddress.str_of_address (ipaddress.network_address net)
  ++ "/" ++ Py.str (ipaddress._prefixlen net).

(** The address written in [ip] is one of the hosts of the network written
    in [subnet]. *)
Definition in_host_range (subnet ip : string) : Prop :=
  exists net l x,
    ipaddress.IPv4Network_of_str subnet false = Ok net
    /\ ipaddress.hosts net = Ok l
    /\ ipaddress.IPv4Address_of_str ip = Ok x
    /\ In x l
    /\ in_block net x.

Definition history_invariant (self : IPGenerator) : Prop :=
  Forall (fun entry => in_host_range (fst entry) (snd entry)) (history self).

(** The calls a client makes on one generator. *)
Inductive call : Type :=
| GenerateRandomIp (subnet : string)
| GetHistory
| ClearHistory.

(** The entries a log of calls puts into the history: one per call that
    returned, in call order. *)
Fixpoint returned (log : list (string * result SubnetError string))
  : list (string * string) :=
  match log with
  | [] => []
  | (subnet, Ok ip) :: log' => (subnet, ip) :: returned log'
  | (_, Raise _) :: log' => returned log'
  end.

Section Session.

Context {R : RandomSource}.

(** One call; what it returns is dropped, the generator and the random
    source go on. *)
Definition do_call (c : call) (st : IPGenerator * rng_state)
  : IPGenerator * rng_state :=
  match c with
  | GenerateRandomIp subnet =>
      let '(_, self', g') := generate_random_ip (fst st) subnet (snd st) in
      (self', g')
  | GetHistory => st
  | ClearHistory => (clear_history (fst st), snd st)
  end.

(** A session: calls in sequence on a fresh generator. *)
Definition session (calls : list call) (g : rng_state)
  : IPGenerator * rng_state :=
  fold_left (fun st c => do_call c st) calls (__init__, g).

(** [generate_random_ip] on each text in turn, with the log of the
    results. *)
Fixpoint generate_each (subnets : list string) (self : IPGenerator)
         (g : rng_state)
  : list (string * result SubnetError string) * IPGenerator * rng_state :=
  match subnets with
  | [] => ([], self, g)
  | subnet :: rest =>
      let '(r, self', g') := generate_random_ip self subnet g in
      let '(log, self'', g'') := generate_each rest self' g' in
      ((subnet, r) :: log, self'', g'')
  end.

End Session.

(** The number a group of digits writes. *)
Definition decimal (w : string) : Z := Py.int_digits 0 w.

(** Some octet of [a.b.c.d/p] exceeds 255 or the prefix exceeds 32. *)
Definition out_of_bounds (a b c d p : string) : Prop :=
  (255 < decimal a \/ 255 < decimal b \/ 255 < decimal c
   \/ 255 < decimal d \/ 32 < decimal p)%Z.


(** The text [main] compares and passes on for a line typed. *)
Definition user_input_of (text : string) : string :=
  Py.lower (Py.strip text).

(** The events that end the loop: Ctrl-C, or a line that reads "exit". *)
Definition ends_loop (e : stdin_event) : bool :=
  match e with
  | KeyboardInterrupt => true
  | Line text => String.eqb (user_input_of text) "exit"
  end.

(** The pairs of the "Random IP from" lines printed since the last
    "History cleared." line, oldest first. *)
Definition generated_since_clear (out : list printed)
  : list (string * string) :=
  fold_left (fun acc p =>
               match p with
               | HistoryCleared => []
               | RandomIp user_input random_ip =>
                   (acc ++ [(user_input, random_ip)])%list
               | _ => acc
               end) out [].

(** The call a line of input stands for, when it does not end the loop. *)
Definition call_of_line (text : string) : call :=
  if String.eqb (user_input_of text) "history" then GetHistory
  else if String.eqb (user_input_of text) "clear" then ClearHistory
  else GenerateRandomIp (user_input_of text).

(** The address of the last "Random IP from" line printed, if any. *)
Definition last_generated (out : list printed) : option string :=
  fold_left (fun acc p =>
               match p with
               | RandomIp _ random_ip => Some random_ip
               | _ => acc
               end) out None.

(** * Properties *)

(** ** Strings *)

Section StringFacts.

Lemma append_nil_r (s : string) : s ++ "" = s.
Proof. induction s as [|c s IH]; simpl; [reflexivity | now rewrite IH]. Qed.

Lemma append_assoc (s t u : string) : (s ++ t) ++ u = s ++ (t ++ u).
Proof. induction s as [|c s IH]; simpl; [reflexivity | now rewrite IH]. Qed.

Lemma all_chars_append p (s t : string) :
  Py.all_chars p (s ++ t) = Py.all_chars p s && Py.all_chars p t.
Proof.
  induction s as [|c s IH]; simpl; [reflexivity|].
  now rewrite IH, andb_assoc.
Qed.

Lemma contains_append c (s t : string) :
  Py.contains c (s ++ t)
  = Py.contains c s || Py.contains c t.
Proof.
  induction s as [|a s IH]; simpl; [reflexivity|].
  now rewrite IH, orb_assoc.
Qed.

(** A text of decimal digits holds no other character. *)
Lemma digits_without c (w : string) :
  Py.isdecimal_char c = false ->
  Py.all_chars Py.isdecimal_char w = true ->
  Py.contains c w = false.
Proof.
  intros Hc. induction w as [|a w IH]; simpl; [reflexivity|].
  intros H. apply andb_true_iff in H as [Ha Hw].
  rewrite (IH Hw), orb_false_r.
  destruct (Ascii.eqb_spec a c) as [->|]; [congruence | reflexivity].
Qed.

Lemma split_nonempty sep (s : string) : Py.split sep s <> [].
Proof.
  destruct s as [|c s]; simpl; [discriminate|].
  destruct (Ascii.eqb c sep); [discriminate|].
  destruct (Py.split sep s); discriminate.
Qed.

(** Cutting at the first separator. *)
Lemma split_append sep (w r : string) :
  Py.contains sep w = false ->
  Py.split sep (w ++ String sep r) = w :: Py.split sep r.
Proof.
  induction w as [|a w IH]; simpl; intros H.
  - now rewrite Ascii.eqb_refl.
  - apply orb_false_iff in H as [Ha Hw].
    rewrite Ha, (IH Hw). reflexivity.
Qed.

Lemma split_none sep (w : string) :
  Py.contains sep w = false -> Py.split sep w = [w].
Proof.
  induction w as [|a w IH]; simpl; intros H; [reflexivity|].
  apply orb_false_iff in H as [Ha Hw].
  now rewrite Ha, (IH Hw).
Qed.

(** [split] loses nothing: joining its pieces gives the text back. *)
Lemma join_split sep (s : string) :
  Py.join (String sep "") (Py.split sep s) = s.
Proof.
  induction s as [|c s IH]; simpl; [reflexivity|].
  destruct (Ascii.eqb_spec c sep) as [->|Hne].
  - pose proof (split_nonempty sep s) as Hn.
    destruct (Py.split sep s) as [|w ws]; [congruence|].
    simpl in *. now rewrite IH.
  - pose proof (split_nonempty sep s) as Hn.
    destruct (Py.split sep s) as [|w ws]; [congruence|].
    destruct ws as [|w' ws]; simpl in *; now rewrite <- IH.
Qed.

End StringFacts.

(** ** What the pattern accepts *)

Section PatternFacts.

Import re.

Lemma run_Repeat_0 lo p pos s k :
  run (Repeat lo 0 p) pos s k = (lo =? 0)%nat && k pos s.
Proof. reflexivity. Qed.

Lemma run_Repeat_S lo hi p pos s k :
  run (Repeat lo (S hi) p) pos s k
  = run p pos s (fun pos' s' => run (Repeat (pred lo) hi p) pos' s' k)
    || ((lo =? 0)%nat && k pos s).
Proof. reflexivity. Qed.

(** [\d{lo,hi}] takes between [lo] and [hi] decimal digits off the text. *)
Lemma run_digits hi : forall lo pos s k,
  run (Repeat lo hi Digit) pos s k = true <->
  exists w r, s = w ++ r
    /\ (lo <= String.length w <= hi)%nat
    /\ Py.all_chars Py.isdecimal_char w = true
    /\ k (pos + String.length w)%nat r = true.
Proof.
  induction hi as [|hi IH]; intros lo pos s k.
  - rewrite run_Repeat_0, andb_true_iff, Nat.eqb_eq. split.
    + intros [-> Hk]. exists "", s. simpl. rewrite Nat.add_0_r.
      repeat split; auto.
    + intros (w & r & -> & [Hlo Hhi] & _ & Hk).
      destruct w; simpl in *; [|lia].
      rewrite Nat.add_0_r in Hk. split; [lia | exact Hk].
  - rewrite run_Repeat_S, orb_true_iff, andb_true_iff, Nat.eqb_eq. split.
    + intros [H | [-> Hk]].
      * destruct s as [|c s]; simpl in H; [discriminate|].
        apply andb_true_iff in H as [Hc H].
        apply IH in H as (w & r & -> & [Hlo Hhi] & Hw & Hk).
        exists (String c w), r. simpl. rewrite Hc, Hw.
        rewrite Nat.add_succ_r. repeat split; auto; lia.
      * exists "", s. simpl. rewrite Nat.add_0_r.
        repeat split; auto; lia.
    + intros (w & r & -> & [Hlo Hhi] & Hw & Hk).
      destruct w as [|c w]; simpl in *.
      * right. rewrite Nat.add_0_r in Hk. split; [lia | exact Hk].
      * left. apply andb_true_iff in Hw as [Hc Hw]. rewrite Hc. simpl.
        apply IH. exists w, r. rewrite Nat.add_succ_r in Hk.
        repeat split; auto; lia.
Qed.

Lemma run_Lit a pos s k :
  run (Lit a) pos s k = true <->
  exists r, s = String a r /\ k (S pos) r = true.
Proof.
  simpl. destruct s as [|c s].
  - split; [discriminate | intros (r & H & _); discriminate].
  - rewrite andb_true_iff. split.
    + intros [Hc Hk]. apply Ascii.eqb_eq in Hc as ->. eauto.
    + intros (r & [= -> ->] & Hk). now rewrite Ascii.eqb_refl.
Qed.

Lemma digits_group_iff n w :
  digits_group n w = true <->
  (1 <= String.length w <= n)%nat
  /\ Py.all_chars Py.isdecimal_char w = true.
Proof.
  unfold digits_group.
  rewrite !andb_true_iff, !Nat.leb_le. tauto.
Qed.

(** [\d{1,n}] followed by the literal [a]. *)
Lemma run_group_then n a pos s k :
  run (Cat (Repeat 1 n Digit) (Lit a)) pos s k = true <->
  exists w r, s = w ++ String a r
    /\ digits_group n w = true
    /\ k (S (pos + String.length w)) r = true.
Proof.
  change (run (Cat (Repeat 1 n Digit) (Lit a)) pos s k)
    with (run (Repeat 1 n Digit) pos s
            (fun pos' s' => run (Lit a) pos' s' k)).
  rewrite run_digits. split.
  - intros (w & r & -> & Hlen & Hw & Hk).
    apply run_Lit in Hk as (r' & -> & Hk).
    exists w, r'. rewrite digits_group_iff. auto.
  - intros (w & r & -> & Hg & Hk).
    apply digits_group_iff in Hg as [Hlen Hw].
    exists w, (String a r). repeat split; auto; try lia.
    apply run_Lit. eauto.
Qed.

(** [X{3}] is [X] three times. *)
Lemma run_thrice p pos s k :
  run (Repeat 3 3 p) pos s k
  = run p pos s (fun p1 s1 =>
      run p p1 s1 (fun p2 s2 => run p p2 s2 k || false) || false)
    || false.
Proof. reflexivity. Qed.

End PatternFacts.

Section ValidateFacts.

Import re.

Lemma at_eol_iff r :
  at_eol r = true <-> r = "" \/ r = String Py.newline "".
Proof.
  destruct r as [|c [|c' r]]; simpl.
  - tauto.
  - rewrite Ascii.eqb_eq. split.
    + intros ->. now right.
    + intros [H|H]; [discriminate | now inversion H].
  - split; [discriminate | intros [H|H]; discriminate].
Qed.

Lemma cidr_text_append a b c d p r :
  cidr_text a b c d p ++ r
  = a ++ String "." (b ++ String "." (c ++ String "."
        (d ++ String "/" (p ++ r)))).
Proof.
  unfold cidr_text. repeat (rewrite append_assoc; simpl). reflexivity.
Qed.

(** The texts [validate_subnet] accepts: the shape, then whatever [$]
    tolerates. *)
Lemma validate_subnet_iff s :
  validate_subnet s = true <->
  exists a b c d p r,
    s = cidr_text a b c d p ++ r
    /\ digits_group 3 a = true /\ digits_group 3 b = true
    /\ digits_group 3 c = true /\ digits_group 3 d = true
    /\ digits_group 2 p = true
    /\ at_eol r = true.
Proof.
  unfold validate_subnet, match_, subnet_pattern.
  set (tail := Cat (Repeat 1 3 Digit)
                 (Cat (Lit "/") (Cat (Repeat 1 2 Digit) Eol))).
  set (grp := Cat (Repeat 1 3 Digit) (Lit ".")).
  change (run (Cat Bol (Cat (Repeat 3 3 grp) tail)) 0 s (fun _ _ => true))
    with (run (Repeat 3 3 grp) 0 s
            (fun pos' s' => run tail pos' s' (fun _ _ => true))).
  rewrite run_thrice, orb_false_r.
  assert (Htail : forall pos t,
    run tail pos t (fun _ _ => true) = true <->
    exists d p r, t = d ++ String "/" (p ++ r)
      /\ digits_group 3 d = true /\ digits_group 2 p = true
      /\ at_eol r = true).
  { intros pos t. subst tail.
    change (run (Cat (Repeat 1 3 Digit)
                   (Cat (Lit "/") (Cat (Repeat 1 2 Digit) Eol)))
              pos t (fun _ _ => true))
      with (run (Cat (Repeat 1 3 Digit) (Lit "/")) pos t
              (fun pos' s' =>
                 run (Repeat 1 2 Digit) pos' s'
                   (fun pos'' s'' => at_eol s'' && true))).
    rewrite run_group_then. split.
    - intros (d & r & -> & Hd & H).
      apply run_digits in H as (p & r' & -> & Hlen & Hp & He).
      rewrite andb_true_r in He.
      exists d, p, r'. repeat split; auto.
      apply digits_group_iff; auto.
    - intros (d & p & r & -> & Hd & Hp & He).
      exists d, (p ++ r). repeat split; auto.
      apply run_digits. exists p, r.
      apply digits_group_iff in Hp as [Hlen Hp].
      rewrite He. repeat split; auto; lia. }
  split.
  - intros H.
    apply run_group_then in H as (a & r1 & -> & Ha & H).
    rewrite orb_false_r in H.
    apply run_group_then in H as (b & r2 & -> & Hb & H).
    rewrite orb_false_r in H.
    apply run_group_then in H as (c & r3 & -> & Hc & H).
    apply Htail in H as (d & p & r & -> & Hd & Hp & He).
    exists a, b, c, d, p, r. rewrite cidr_text_append.
    repeat split; auto.
  - intros (a & b & c & d & p & r & -> & Ha & Hb & Hc & Hd & Hp & He).
    apply run_group_then.
    exists a, (b ++ String "." (c ++ String "." (d ++ String "/" (p ++ r)))).
    split; [apply cidr_text_append|]. split; [exact Ha|].
    rewrite orb_false_r. apply run_group_then.
    exists b, (c ++ String "." (d ++ String "/" (p ++ r))).
    split; [reflexivity|]. split; [exact Hb|].
    rewrite orb_false_r. apply run_group_then.
    exists c, (d ++ String "/" (p ++ r)).
    split; [reflexivity|]. split; [exact Hc|].
    apply Htail. exists d, p, r. auto.
Qed.

End ValidateFacts.

Section DigitFacts.

Lemma dot_not_decimal : Py.isdecimal_char "."%char = false.
Proof. reflexivity. Qed.

Lemma slash_not_decimal : Py.isdecimal_char "/"%char = false.
Proof. reflexivity. Qed.

Lemma group_without c n w :
  Py.isdecimal_char c = false ->
  digits_group n w = true -> Py.contains c w = false.
Proof.
  intros Hc Hw. apply digits_group_iff in Hw as [_ Hw].
  now apply digits_without.
Qed.

Lemma newline_not_decimal : Py.isdecimal_char Py.newline = false.
Proof. reflexivity. Qed.

End DigitFacts.

Create HintDb shape.

#[global] Hint Resolve dot_not_decimal slash_not_decimal newline_not_decimal
  : shape.

(** Closes [Py.contains c w = false] for a group of digits [w] and a
    separator or newline [c]. *)
Ltac absent := eapply group_without; eauto with shape.

Section ShapeFacts.

Lemma cidr_text_quad a b c d p :
  cidr_text a b c d p = quad_text a b c d ++ String "/" p.
Proof.
  unfold cidr_text, quad_text.
  repeat (rewrite append_assoc; simpl). reflexivity.
Qed.

Lemma split_quad a b c d :
  digits_group 3 a = true -> digits_group 3 b = true ->
  digits_group 3 c = true -> digits_group 3 d = true ->
  Py.split "." (quad_text a b c d) = [a; b; c; d].
Proof.
  intros Ha Hb Hc Hd. unfold quad_text. simpl.
  rewrite !split_append by absent.
  rewrite split_none by absent.
  reflexivity.
Qed.

Lemma quad_without_slash a b c d :
  digits_group 3 a = true -> digits_group 3 b = true ->
  digits_group 3 c = true -> digits_group 3 d = true ->
  Py.contains "/" (quad_text a b c d) = false.
Proof.
  intros Ha Hb Hc Hd. unfold quad_text.
  rewrite !contains_append. simpl.
  rewrite !(group_without "/" 3) by auto with shape.
  reflexivity.
Qed.

Lemma split_cidr a b c d p :
  digits_group 3 a = true -> digits_group 3 b = true ->
  digits_group 3 c = true -> digits_group 3 d = true ->
  digits_group 2 p = true ->
  Py.split "/" (cidr_text a b c d p) = [quad_text a b c d; p].
Proof.
  intros Ha Hb Hc Hd Hp. rewrite cidr_text_quad.
  rewrite split_append by now apply quad_without_slash.
  rewrite split_none by absent.
  reflexivity.
Qed.

(** The shape of the specification is the set of texts [a.b.c.d/p]. *)
Lemma lexical_shape_iff s :
  lexical_shape s = true <->
  exists a b c d p,
    s = cidr_text a b c d p
    /\ digits_group 3 a = true /\ digits_group 3 b = true
    /\ digits_group 3 c = true /\ digits_group 3 d = true
    /\ digits_group 2 p = true.
Proof.
  split.
  - unfold lexical_shape. intros H.
    pose proof (join_split "/" s) as Hs.
    destruct (Py.split "/" s) as [|quad [|pfx [|? ?]]]; try discriminate.
    pose proof (join_split "." quad) as Hq.
    destruct (Py.split "." quad) as [|a [|b [|c [|d [|? ?]]]]];
      try discriminate.
    rewrite !andb_true_iff in H.
    destruct H as [[[[Ha Hb] Hc] Hd] Hp].
    exists a, b, c, d, pfx. repeat split; auto.
    rewrite cidr_text_quad. unfold quad_text.
    simpl in Hs, Hq. simpl. rewrite Hq. now rewrite <- Hs.
  - intros (a & b & c & d & p & -> & Ha & Hb & Hc & Hd & Hp).
    unfold lexical_shape.
    rewrite split_cidr, split_quad by assumption.
    now rewrite Ha, Hb, Hc, Hd, Hp.
Qed.

(** [validate_subnet] against the shape: the shape itself, or the shape
    followed by one newline. *)
Lemma validate_subnet_shape s :
  validate_subnet s = true <->
  lexical_shape s = true
  \/ exists t, s = t ++ String Py.newline "" /\ lexical_shape t = true.
Proof.
  rewrite validate_subnet_iff. split.
  - intros (a & b & c & d & p & r & -> & Ha & Hb & Hc & Hd & Hp & He).
    assert (Ht : lexical_shape (cidr_text a b c d p) = true).
    { apply lexical_shape_iff. exists a, b, c, d, p. auto 10. }
    apply at_eol_iff in He as [-> | ->].
    + left. now rewrite append_nil_r.
    + right. eauto.
  - intros [H | (t & -> & H)];
      apply lexical_shape_iff in H
        as (a & b & c & d & p & -> & Ha & Hb & Hc & Hd & Hp);
      exists a, b, c, d, p.
    + exists "". rewrite append_nil_r. auto 10.
    + exists (String Py.newline ""). auto 10.
Qed.

End ShapeFacts.

(** ** Integers and bits *)

Section BitFacts.

Open Scope Z_scope.

Lemma range_In lo hi y : In y (Py.range lo hi) <-> lo <= y < hi.
Proof.
  unfold Py.range. rewrite in_map_iff. split.
  - intros (i & <- & Hi). apply in_seq in Hi. lia.
  - intros H. exists (Z.to_nat (y - lo)). split; [lia|].
    apply in_seq. lia.
Qed.

Lemma range_cons lo hi :
  lo < hi -> exists l, Py.range lo hi = lo :: l.
Proof.
  intros H. unfold Py.range.
  destruct (Z.to_nat (hi - lo)) as [|n] eqn:E; [lia|].
  simpl. rewrite Z.add_0_r. eauto.
Qed.

Lemma small_bits_high a i :
  0 <= a < 2 ^ 32 -> 32 <= i -> Z.testbit a i = false.
Proof.
  intros [Ha Hlt] Hi.
  destruct (Z.eq_dec a 0) as [->|Hnz]; [apply Z.bits_0|].
  apply Z.bits_above_log2; [exact Ha|].
  assert (Z.log2 a < 32) by (apply Z.log2_lt_pow2; lia). lia.
Qed.

(** The netmask and the hostmask of each prefix length. *)
Lemma masks_of_prefix p :
  0 <= p <= 32 ->
  ipaddress._ip_int_from_prefix p = Z.ldiff (Z.ones 32) (Z.ones (32 - p))
  /\ Z.lxor (ipaddress._ip_int_from_prefix p) ipaddress._ALL_ONES
     = Z.ones (32 - p).
Proof.
  intros Hp. rewrite <- (Z2Nat.id p) by lia.
  assert (Hn : (Z.to_nat p <= 32)%nat) by lia.
  generalize dependent (Z.to_nat p). clear p Hp. intros n Hn.
  do 33 (destruct n as [|n]; [vm_compute; split; reflexivity|]).
  lia.
Qed.

Lemma land_ldiff_ones a h :
  0 <= a < 2 ^ 32 ->
  Z.land a (Z.ldiff (Z.ones 32) (Z.ones h)) = Z.ldiff a (Z.ones h).
Proof.
  intros Ha. apply Z.bits_inj'. intros i Hi.
  rewrite Z.land_spec, !Z.ldiff_spec.
  destruct (Z_lt_le_dec i 32) as [Hlt|Hge].
  - rewrite (Z.testbit_ones_nonneg 32 i) by lia.
    replace (i <? 32) with true by (symmetry; apply Z.ltb_lt; lia).
    reflexivity.
  - now rewrite (small_bits_high a i Ha Hge).
Qed.

Lemma ldiff_ones_div a h :
  0 <= h -> Z.ldiff a (Z.ones h) = 2 ^ h * (a / 2 ^ h).
Proof.
  intros Hh. rewrite Z.ldiff_ones_r by lia.
  rewrite Z.shiftl_mul_pow2, Z.shiftr_div_pow2 by lia. lia.
Qed.

Lemma lor_ldiff_add a m : Z.lor (Z.ldiff a m) m = Z.ldiff a m + m.
Proof.
  rewrite <- (Z.add_lor_land (Z.ldiff a m) m).
  assert (H : Z.land (Z.ldiff a m) m = 0).
  { apply Z.bits_inj'. intros i Hi.
    rewrite Z.land_spec, Z.ldiff_spec, Z.bits_0.
    destruct (Z.testbit a i), (Z.testbit m i); reflexivity. }
  rewrite H. lia.
Qed.

End BitFacts.

(** ** The block of a parsed network *)

Section BlockFacts.

Open Scope Z_scope.

Import ipaddress.

(** The block is the aligned interval of [2 ^ (32 - prefixlen)] addresses
    around the address of the text. *)
Lemma block_bounds net a :
  parsed_network net a ->
  let size := 2 ^ (32 - _prefixlen net) in
  network_address net = size * (a / size)
  /\ broadcast_address net = network_address net + size - 1
  /\ 1 <= size
  /\ (_prefixlen net <= 30 -> 4 <= size)
  /\ (_prefixlen net = 31 -> size = 2)
  /\ (_prefixlen net = 32 -> size = 1)
  /\ 0 <= network_address net
  /\ broadcast_address net < 2 ^ 32.
Proof.
  intros [Htext Ha Hp Hmask Hnet]. cbv zeta.
  set (p := _prefixlen net) in *.
  destruct (masks_of_prefix p Hp) as [Hnm Hhm].
  assert (Hsize : 0 < 2 ^ (32 - p)) by (apply Z.pow_pos_nonneg; lia).
  assert (Hna : network_address net = 2 ^ (32 - p) * (a / 2 ^ (32 - p))).
  { rewrite Hnet, Hmask, Hnm, land_ldiff_ones by assumption.
    apply ldiff_ones_div. lia. }
  assert (Hbc : broadcast_address net
                = network_address net + 2 ^ (32 - p) - 1).
  { unfold broadcast_address, hostmask. fold p. rewrite Hmask, Hhm.
    rewrite Hnet, Hmask, Hnm, land_ldiff_ones by assumption.
    rewrite lor_ldiff_add, Z.ones_equiv. lia. }
  assert (Hpow : 2 ^ 32 = 2 ^ (32 - p) * 2 ^ p).
  { rewrite <- Z.pow_add_r by lia. f_equal. lia. }
  assert (Hq : a / 2 ^ (32 - p) < 2 ^ p).
  { apply Z.div_lt_upper_bound; lia. }
  assert (Hq0 : 0 <= a / 2 ^ (32 - p)) by (apply Z.div_pos; lia).
  repeat split.
  - exact Hna.
  - exact Hbc.
  - lia.
  - intros H30.
    assert (2 ^ 2 <= 2 ^ (32 - p)) by (apply Z.pow_le_mono_r; lia).
    change (2 ^ 2) with 4 in *. lia.
  - intros ->. reflexivity.
  - intros ->. reflexivity.
  - rewrite Hna. nia.
  - rewrite Hbc, Hna. nia.
Qed.

(** Every address between the network and the broadcast address lies in
    the block. *)
Lemma between_in_block net a x :
  parsed_network net a ->
  network_address net <= x <= broadcast_address net ->
  in_block net x.
Proof.
  intros Hnet Hx.
  destruct (block_bounds net a Hnet)
    as (Hna & Hbc & Hs1 & _ & _ & _ & H0 & Hlt).
  destruct Hnet as [Htext Ha Hp Hmask _].
  set (size := 2 ^ (32 - _prefixlen net)) in *.
  assert (Hx32 : 0 <= x < 2 ^ 32) by lia.
  split; [exact Hx32|].
  destruct (masks_of_prefix _ Hp) as [Hnm _].
  rewrite Hmask, Hnm, land_ldiff_ones by assumption.
  rewrite ldiff_ones_div by lia. fold size.
  rewrite Hna. f_equal. symmetry.
  apply Z.div_unique with (r := x - size * (a / size)); lia.
Qed.

End BlockFacts.

(** ** What parsing establishes *)

Section ParseFacts.

Open Scope Z_scope.

Import ipaddress.

Lemma ascii_digit_decimal c :
  Py.isascii_char c && Py.isdigit_char c = true ->
  Py.isdecimal_char c = true.
Proof.
  unfold Py.isascii_char, Py.isdigit_char, Py.isdecimal_char.
  set (n := Py.ord c).
  destruct ((48 <=? n)%nat && (n <=? 57)%nat) eqn:E; [reflexivity|].
  simpl. intros H. apply andb_true_iff in H as [H1 H2].
  apply Nat.ltb_lt in H1.
  rewrite !orb_true_iff, !Nat.eqb_eq in H2. lia.
Qed.

Lemma decimal_ascii_digit c :
  Py.isdecimal_char c = true ->
  Py.isascii_char c = true /\ Py.isdigit_char c = true.
Proof.
  unfold Py.isascii_char, Py.isdigit_char. intros H. rewrite H.
  split; [|reflexivity].
  unfold Py.isdecimal_char in H. apply andb_true_iff in H as [_ H].
  apply Nat.leb_le in H. apply Nat.ltb_lt. lia.
Qed.

(** [s.isascii() and s.isdigit()] holds exactly of the non-empty texts of
    decimal digits. *)
Lemma isascii_isdigit_iff s :
  Py.isascii s && Py.isdigit s = true <->
  s <> "" /\ Py.all_chars Py.isdecimal_char s = true.
Proof.
  assert (Hall : forall t,
    Py.all_chars Py.isascii_char t && Py.all_chars Py.isdigit_char t = true
    <-> Py.all_chars Py.isdecimal_char t = true).
  { induction t as [|c t IH]; simpl; [tauto|].
    rewrite !andb_true_iff in *. split.
    - intros [[H1 H2] [H3 H4]]. split; [|tauto].
      apply ascii_digit_decimal. now rewrite H1, H3.
    - intros [Hc Ht]. apply decimal_ascii_digit in Hc. tauto. }
  unfold Py.isascii, Py.isdigit. destruct s as [|c s].
  - simpl. split; [discriminate | intros [H _]; congruence].
  - rewrite Hall. split; [intros H; split; [discriminate | exact H] | tauto].
Qed.

Lemma digit_value_range c :
  Py.isdecimal_char c = true -> 0 <= Py.digit_value c <= 9.
Proof.
  unfold Py.isdecimal_char, Py.digit_value. intros H.
  apply andb_true_iff in H as [H1 H2].
  apply Nat.leb_le in H1. apply Nat.leb_le in H2. lia.
Qed.

Lemma int_digits_lower s : forall acc,
  Py.all_chars Py.isdecimal_char s = true ->
  0 <= acc -> 0 <= Py.int_digits acc s.
Proof.
  induction s as [|c s IH]; cbn [Py.int_digits Py.all_chars];
    intros acc H Hacc; [exact Hacc|].
  apply andb_true_iff in H as [Hc Hs].
  apply IH; [exact Hs|]. pose proof (digit_value_range c Hc). lia.
Qed.

Lemma int_of_group n w :
  digits_group n w = true -> Py.int w = Some (Py.int_digits 0 w).
Proof.
  intros H. apply digits_group_iff in H as [Hlen Hw]. unfold Py.int.
  replace (Py.isascii w && Py.isdigit w) with true; [reflexivity|].
  symmetry. apply isascii_isdigit_iff. split; [|exact Hw].
  intros ->. simpl in Hlen. lia.
Qed.

Lemma _parse_octet_range o v : _parse_octet o = Ok v -> 0 <= v <= 255.
Proof.
  unfold _parse_octet.
  destruct (String.eqb o ""); [discriminate|].
  destruct (Py.isascii o && Py.isdigit o) eqn:Hd; [|discriminate]. simpl.
  destruct (3 <? String.length o)%nat; [discriminate|].
  destruct (negb (String.eqb o "0") && _); [discriminate|].
  unfold Py.int. rewrite Hd.
  destruct (255 <? Py.int_digits 0 o) eqn:E; [discriminate|].
  intros [= <-]. apply Z.ltb_ge in E.
  apply isascii_isdigit_iff in Hd as [_ Hd].
  pose proof (int_digits_lower o 0 Hd). lia.
Qed.

Lemma parse_octets_4 a b c d bs :
  parse_octets [a; b; c; d] = Ok bs ->
  exists va vb vc vd,
    bs = [va; vb; vc; vd]
    /\ _parse_octet a = Ok va /\ _parse_octet b = Ok vb
    /\ _parse_octet c = Ok vc /\ _parse_octet d = Ok vd.
Proof.
  simpl. unfold bind.
  destruct (_parse_octet a) as [va|]; [|discriminate].
  destruct (_parse_octet b) as [vb|]; [|discriminate].
  destruct (_parse_octet c) as [vc|]; [|discriminate].
  destruct (_parse_octet d) as [vd|]; [|discriminate].
  intros [= <-]. exists va, vb, vc, vd. auto.
Qed.

Lemma _ip_int_from_string_range s a :
  _ip_int_from_string s = Ok a -> 0 <= a < 2 ^ 32.
Proof.
  unfold _ip_int_from_string.
  destruct (String.eqb s ""); [discriminate|].
  destruct (Py.split "." s) as [|o1 [|o2 [|o3 [|o4 [|? ?]]]]];
    try discriminate.
  simpl negb. cbv iota.
  destruct (parse_octets [o1; o2; o3; o4]) as [bs|] eqn:E; [|discriminate].
  intros [= <-].
  apply parse_octets_4 in E as (v1 & v2 & v3 & v4 & -> & H1 & H2 & H3 & H4).
  apply _parse_octet_range in H1, H2, H3, H4.
  unfold from_bytes. cbn [fold_left].
  change (2 ^ 32) with 4294967296. lia.
Qed.

Lemma IPv4Address_of_str_range s a :
  IPv4Address_of_str s = Ok a -> 0 <= a < 2 ^ 32.
Proof.
  unfold IPv4Address_of_str. destruct (Py.contains "/" s); [discriminate|].
  apply _ip_int_from_string_range.
Qed.

Lemma bit_length_nonneg n : 0 <= Py.bit_length n.
Proof.
  unfold Py.bit_length. destruct (n =? 0); [lia|].
  pose proof (Z.log2_nonneg (Z.abs n)). lia.
Qed.

Lemma _prefix_from_ip_int_range x p :
  _prefix_from_ip_int x = Some p -> 0 <= p <= 32.
Proof.
  unfold _prefix_from_ip_int. cbv zeta.
  set (tz := _count_righthand_zero_bits x _max_prefixlen).
  assert (Htz : 0 <= tz <= 32).
  { subst tz. unfold _count_righthand_zero_bits, _max_prefixlen, IPV4LENGTH.
    destruct (x =? 0); [lia|].
    pose proof (bit_length_nonneg (Z.land (Z.lnot x) (x - 1))). lia. }
  destruct (negb _); [discriminate|]. intros H.
  assert (Hp : p = _max_prefixlen - tz) by congruence.
  unfold _max_prefixlen, IPV4LENGTH in Hp. lia.
Qed.

Lemma _prefix_from_prefix_string_range s p :
  _prefix_from_prefix_string s = Ok p -> 0 <= p <= 32.
Proof.
  unfold _prefix_from_prefix_string, _report_invalid_netmask,
    _max_prefixlen, IPV4LENGTH.
  destruct (negb (Py.isascii s && Py.isdigit s)); [discriminate|].
  destruct (Py.int s) as [n|]; [|discriminate].
  destruct ((0 <=? n) && (n <=? 32)) eqn:E; [|discriminate].
  simpl. intros [= <-]. apply andb_true_iff in E as [H1 H2]. lia.
Qed.

Lemma _make_netmask_spec m nm p :
  _make_netmask m = Ok (nm, p) ->
  0 <= p <= 32 /\ nm = _ip_int_from_prefix p.
Proof.
  unfold _make_netmask, bind.
  destruct m as [s|n].
  - destruct (_prefix_from_prefix_string s) as [q|e] eqn:E.
    + intros [= <- <-]. split; [|reflexivity].
      eapply _prefix_from_prefix_string_range; eauto.
    + unfold _prefix_from_ip_string, _report_invalid_netmask.
      destruct (_ip_int_from_string s) as [x|]; [|discriminate].
      destruct (_prefix_from_ip_int x) as [q|] eqn:E1.
      * intros [= <- <-]. split; [|reflexivity].
        eapply _prefix_from_ip_int_range; eauto.
      * destruct (_prefix_from_ip_int (Z.lxor x _ALL_ONES)) as [q|] eqn:E2;
          [|discriminate].
        intros [= <- <-]. split; [|reflexivity].
        eapply _prefix_from_ip_int_range; eauto.
  - unfold _report_invalid_netmask, _max_prefixlen, IPV4LENGTH.
    destruct ((0 <=? n) && (n <=? 32)) eqn:E; [|discriminate].
    simpl. intros [= <- <-]. apply andb_true_iff in E as [H1 H2].
    split; [lia | reflexivity].
Qed.

(** The constructor, with or without [strict], only returns networks that
    satisfy [parsed_network]. *)
Lemma IPv4Network_parsed s strict net :
  IPv4Network_of_str s strict = Ok net -> exists a, parsed_network net a.
Proof.
  unfold IPv4Network_of_str, bind, lift_address, lift_netmask.
  destruct (_split_addr_prefix s) as [[ad mask]|]; [|discriminate].
  destruct (IPv4Address_of_str ad) as [a|] eqn:Ea; [|discriminate].
  destruct (_make_netmask mask) as [[nm p]|] eqn:Em; [|discriminate].
  apply _make_netmask_spec in Em as [Hp ->].
  pose proof (IPv4Address_of_str_range _ _ Ea) as Ha.
  destruct (negb (Z.land a (_ip_int_from_prefix p) =? a)) eqn:E.
  - destruct strict; [discriminate|]. intros [= <-].
    exists a. constructor; simpl; auto.
  - intros [= <-]. exists a. constructor; simpl; auto.
    apply negb_false_iff, Z.eqb_eq in E. now rewrite E.
Qed.

End ParseFacts.

(** ** Text of an address and back *)

Section TextFacts.

Open Scope Z_scope.

Import ipaddress.

Lemma below_forallb (f : Z -> bool) (n : nat) :
  forallb (fun i => f (Z.of_nat i)) (seq 0 n) = true ->
  forall v, 0 <= v < Z.of_nat n -> f v = true.
Proof.
  intros H v Hv. rewrite forallb_forall in H.
  rewrite <- (Z2Nat.id v) by lia. apply H, in_seq. lia.
Qed.

Lemma byte_text v :
  0 <= v <= 255 ->
  digits_group 3 (Py.str v) = true /\ _parse_octet (Py.str v) = Ok v.
Proof.
  intros Hv.
  assert (H : byte_text_ok v = true).
  { apply (below_forallb byte_text_ok 256); [vm_compute; reflexivity | lia]. }
  unfold byte_text_ok in H. apply andb_true_iff in H as [Hg Hp].
  split; [exact Hg|].
  destruct (_parse_octet (Py.str v)) as [w|]; [|discriminate].
  apply Z.eqb_eq in Hp. now subst.
Qed.

Lemma prefix_text p :
  0 <= p <= 32 ->
  digits_group 2 (Py.str p) = true
  /\ _prefix_from_prefix_string (Py.str p) = Ok p.
Proof.
  intros Hp.
  assert (H : prefix_text_ok p = true).
  { apply (below_forallb prefix_text_ok 33); [vm_compute; reflexivity | lia]. }
  unfold prefix_text_ok in H. apply andb_true_iff in H as [Hg Hq].
  split; [exact Hg|].
  destruct (_prefix_from_prefix_string (Py.str p)) as [q|]; [|discriminate].
  apply Z.eqb_eq in Hq. now subst.
Qed.

Lemma to_bytes4_spec x :
  0 <= x < 2 ^ 32 ->
  Forall (fun b => 0 <= b <= 255) (to_bytes4 x)
  /\ from_bytes (to_bytes4 x) = x.
Proof.
  intros Hx. unfold to_bytes4, from_bytes.
  rewrite !Z.shiftr_div_pow2 by lia.
  change (2 ^ 24) with 16777216. change (2 ^ 16) with 65536.
  change (2 ^ 8) with 256. change (2 ^ 32) with 4294967296 in Hx.
  cbn [fold_left]. split.
  - repeat constructor; (apply Z.mod_pos_bound || apply Z.lt_succ_r);
      try apply Z.mod_pos_bound; lia.
  - Z.div_mod_to_equations. lia.
Qed.

Lemma group_nonempty n w : digits_group n w = true -> w <> "".
Proof.
  intros H ->. apply digits_group_iff in H as [H _]. simpl in H. lia.
Qed.

(** Parsing a dotted quad of four groups goes octet by octet. *)
Lemma IPv4Address_of_quad a b c d :
  digits_group 3 a = true -> digits_group 3 b = true ->
  digits_group 3 c = true -> digits_group 3 d = true ->
  IPv4Address_of_str (quad_text a b c d)
  = match parse_octets [a; b; c; d] with
    | Ok bs => Ok (from_bytes bs)
    | Raise exc => Raise (InOctet exc (quad_text a b c d))
    end.
Proof.
  intros Ha Hb Hc Hd. unfold IPv4Address_of_str.
  rewrite quad_without_slash by assumption.
  unfold _ip_int_from_string. rewrite split_quad by assumption.
  replace (String.eqb (quad_text a b c d) "") with false; [reflexivity|].
  symmetry. apply String.eqb_neq. unfold quad_text.
  pose proof (group_nonempty 3 a Ha). destruct a; [congruence | discriminate].
Qed.

Lemma str_of_address_quad x :
  str_of_address x
  = quad_text (Py.str (Z.shiftr x 24 mod 256)) (Py.str (Z.shiftr x 16 mod 256))
      (Py.str (Z.shiftr x 8 mod 256)) (Py.str (x mod 256)).
Proof. reflexivity. Qed.

(** Round trip: the text of an address parses back to the address. *)
Lemma IPv4Address_of_str_of_address x :
  0 <= x < 2 ^ 32 -> IPv4Address_of_str (str_of_address x) = Ok x.
Proof.
  intros Hx. destruct (to_bytes4_spec x Hx) as [Hb Hfrom].
  rewrite str_of_address_quad.
  unfold to_bytes4 in Hb.
  inversion_clear Hb as [|? ? H3 Hb']. inversion_clear Hb' as [|? ? H2 Hb].
  inversion_clear Hb as [|? ? H1 Hb']. inversion_clear Hb' as [|? ? H0 _].
  destruct (byte_text _ H3) as [G3 P3]. destruct (byte_text _ H2) as [G2 P2].
  destruct (byte_text _ H1) as [G1 P1]. destruct (byte_text _ H0) as [G0 P0].
  rewrite IPv4Address_of_quad by assumption.
  cbn [parse_octets]. rewrite P3, P2, P1, P0. cbn [bind].
  f_equal. exact Hfrom.
Qed.

End TextFacts.

(** ** Hosts of a parsed network *)

Section HostFacts.

Open Scope Z_scope.

Import ipaddress.

(** [hosts] never fails on a parsed network and never comes back empty;
    what it lists lies in the block, and strictly inside it up to /30. *)
Lemma hosts_parsed net a :
  parsed_network net a ->
  exists x l,
    hosts net = Ok (x :: l)
    /\ forall y, In y (x :: l) ->
         network_address net <= y <= broadcast_address net
         /\ (_prefixlen net <= 30 ->
             network_address net < y < broadcast_address net).
Proof.
  intros Hnet.
  destruct (block_bounds net a Hnet)
    as (Hna & Hbc & Hs1 & Hs4 & Hs2 & Hs0 & H0 & Hlt).
  pose proof (address_text net a Hnet) as Htext.
  pose proof (prefix_range net a Hnet) as Hp.
  unfold hosts, _max_prefixlen, IPV4LENGTH. change (32 - 1) with 31.
  destruct (Z.eqb_spec (_prefixlen net) 31) as [E31|N31].
  - unfold iter.
    destruct (range_cons (network_address net) (broadcast_address net + 1))
      as [l Hl]; [lia|].
    exists (network_address net), l. split; [now rewrite Hl|].
    intros y Hy.
    assert (Hr : In y (Py.range (network_address net)
                         (broadcast_address net + 1)))
      by (rewrite Hl; exact Hy).
    apply range_In in Hr. lia.
  - destruct (Z.eqb_spec (_prefixlen net) 32) as [E32|N32].
    + rewrite Htext. cbn [bind]. exists a, []. split; [reflexivity|].
      intros y [<-|[]]. specialize (Hs0 E32).
      assert (a / 1 = a) by apply Z.div_1_r.
      rewrite Hs0 in *. lia.
    + assert (H30 : _prefixlen net <= 30) by lia. specialize (Hs4 H30).
      destruct (range_cons (network_address net + 1) (broadcast_address net))
        as [l Hl]; [lia|].
      exists (network_address net + 1), l. split; [now rewrite Hl|].
      intros y Hy.
      assert (Hr : In y (Py.range (network_address net + 1)
                           (broadcast_address net)))
        by (rewrite Hl; exact Hy).
      apply range_In in Hr. lia.
Qed.

End HostFacts.

(** ** One call to [generate_random_ip] *)

Section GenerateFacts.

Context {R : RandomSource}.

Import ipaddress.

(** The path through the function when parsing succeeds and the host
    list is [x :: l]. *)
Lemma generate_random_ip_returns self subnet g net x l :
  validate_subnet subnet = true ->
  IPv4Network_of_str subnet false = Ok net ->
  hosts net = Ok (x :: l) ->
  let r := _randbelow (List.length (x :: l)) g in
  let random_ip := str_of_address (nth (fst r) (x :: l) x) in
  generate_random_ip self subnet g
  = (Ok random_ip, mkIPGenerator (history self ++ [(subnet, random_ip)]),
     snd r).
Proof.
  intros Hv Hn Hh. unfold generate_random_ip, random.choice.
  rewrite Hv, Hn, Hh. cbn [negb].
  destruct (_randbelow (List.length (x :: l)) g) as [i g']. reflexivity.
Qed.

Lemma choice_In {A} (x : A) (l : list A) (g : rng_state) :
  In (nth (fst (_randbelow (List.length (x :: l)) g)) (x :: l) x) (x :: l).
Proof. apply nth_In, _randbelow_lt. simpl. lia. Qed.

(** A call that fails changes neither the history nor the random
    source. *)
Lemma generate_random_ip_raises self subnet g e self' g' :
  generate_random_ip self subnet g = (Raise e, self', g') ->
  self' = self /\ g' = g.
Proof.
  unfold generate_random_ip.
  destruct (negb (validate_subnet subnet)); [now intros [= _ <- <-]|].
  destruct (IPv4Network_of_str subnet false) as [net|];
    [|now intros [= _ <- <-]].
  destruct (hosts net) as [[|x l]|]; try now intros [= _ <- <-].
  destruct (random.choice x (x :: l) g). discriminate.
Qed.

(** A call that returns appends exactly its own pair. *)
Lemma generate_random_ip_appends self subnet g ip self' g' :
  generate_random_ip self subnet g = (Ok ip, self', g') ->
  history self' = (history self ++ [(subnet, ip)])%list.
Proof.
  unfold generate_random_ip.
  destruct (negb (validate_subnet subnet)); [discriminate|].
  destruct (IPv4Network_of_str subnet false) as [net|]; [|discriminate].
  destruct (hosts net) as [[|x l]|]; try discriminate.
  destruct (random.choice x (x :: l) g). now intros [= <- <- _].
Qed.

End GenerateFacts.

(** ** Parsing a text of the lexical shape *)

Section CidrFacts.

Open Scope Z_scope.

Import ipaddress.

(** The constructor on [quad/pfx]: the text is cut at its only slash. *)
Lemma IPv4Network_of_quad_slash a b c d pfx strict :
  digits_group 3 a = true -> digits_group 3 b = true ->
  digits_group 3 c = true -> digits_group 3 d = true ->
  Py.contains "/" pfx = false ->
  let quad := quad_text a b c d in
  let address := quad ++ String "/" pfx in
  IPv4Network_of_str address strict
  = (let* network_address := lift_address (IPv4Address_of_str quad) in
     let* (netmask, prefixlen) := lift_netmask (_make_netmask (MaskStr pfx)) in
     if negb (Z.land network_address netmask =? network_address) then
       if strict then Raise (HostBitsSet address)
       else Ok (mkIPv4Network (Z.land network_address netmask) netmask
                  prefixlen quad)
     else Ok (mkIPv4Network network_address netmask prefixlen quad)).
Proof.
  intros Ha Hb Hc Hd Hpfx quad address.
  unfold IPv4Network_of_str, _split_addr_prefix, _split_optional_netmask.
  subst address. rewrite split_append by now apply quad_without_slash.
  rewrite split_none by assumption. reflexivity.
Qed.

(** A group of digits after the slash is read as a prefix length, and
    nothing else: without dots it cannot be a dotted netmask. *)
Lemma _prefix_from_ip_string_no_dot s :
  Py.contains "." s = false ->
  _prefix_from_ip_string s = Raise (NotAValidNetmask s).
Proof.
  intros H. unfold _prefix_from_ip_string, _ip_int_from_string.
  destruct (String.eqb s ""); [reflexivity|].
  rewrite split_none by assumption. reflexivity.
Qed.

Lemma _make_netmask_group p :
  digits_group 2 p = true ->
  _make_netmask (MaskStr p)
  = if Py.int_digits 0 p <=? 32
    then Ok (_ip_int_from_prefix (Py.int_digits 0 p), Py.int_digits 0 p)
    else Raise (NotAValidNetmask p).
Proof.
  intros Hp. unfold _make_netmask, _prefix_from_prefix_string.
  rewrite (int_of_group 2 p Hp).
  pose proof Hp as Hg. apply digits_group_iff in Hg as [Hlen Hdig].
  replace (Py.isascii p && Py.isdigit p) with true.
  2:{ symmetry. apply isascii_isdigit_iff. split; [|exact Hdig].
      now apply (group_nonempty 2). }
  pose proof (int_digits_lower p 0 Hdig ltac:(lia)) as H0.
  unfold _max_prefixlen, IPV4LENGTH. cbn [negb].
  replace (0 <=? Py.int_digits 0 p) with true
    by (symmetry; apply Z.leb_le; exact H0).
  cbn [andb]. destruct (Py.int_digits 0 p <=? 32); cbn [negb bind].
  - reflexivity.
  - unfold _report_invalid_netmask.
    rewrite _prefix_from_ip_string_no_dot; [reflexivity|].
    absent.
Qed.

(** Text after the slash that is not all digits is no netmask either, as
    long as it has no dots. *)
Lemma _make_netmask_not_digits s :
  Py.isascii s && Py.isdigit s = false ->
  Py.contains "." s = false ->
  _make_netmask (MaskStr s) = Raise (NotAValidNetmask s).
Proof.
  intros Hd Hdot. unfold _make_netmask, _prefix_from_prefix_string.
  rewrite Hd. cbn [negb]. unfold _report_invalid_netmask at 1.
  now rewrite _prefix_from_ip_string_no_dot.
Qed.

(** One octet of the shape: the leading zero test, then the bound. *)
Lemma _parse_octet_group w :
  digits_group 3 w = true ->
  255 < Py.int_digits 0 w ->
  exists e, _parse_octet w = Raise e.
Proof.
  intros Hw Hbig. unfold _parse_octet.
  destruct (String.eqb w ""); [eauto|].
  destruct (negb (Py.isascii w && Py.isdigit w)); [eauto|].
  destruct (3 <? String.length w)%nat; [eauto|].
  destruct (negb (String.eqb w "0") && _); [eauto|].
  rewrite (int_of_group 3 w Hw).
  replace (255 <? Py.int_digits 0 w) with true
    by (symmetry; apply Z.ltb_lt; exact Hbig).
  eauto.
Qed.

End CidrFacts.

(** ** Texts that do not parse *)

Section RejectFacts.

Context {R : RandomSource}.

Open Scope Z_scope.

Import ipaddress.

Lemma validate_subnet_cidr a b c d p :
  digits_group 3 a = true -> digits_group 3 b = true ->
  digits_group 3 c = true -> digits_group 3 d = true ->
  digits_group 2 p = true ->
  validate_subnet (cidr_text a b c d p) = true.
Proof.
  intros Ha Hb Hc Hd Hp. apply validate_subnet_shape. left.
  apply lexical_shape_iff. exists a, b, c, d, p. auto 10.
Qed.

(** A text that passes the format check and does not parse raises
    [InvalidSubnet] and leaves the generator as it was. *)
Lemma generate_random_ip_invalid_subnet self subnet g e :
  validate_subnet subnet = true ->
  IPv4Network_of_str subnet false = Raise e ->
  generate_random_ip self subnet g = (Raise (InvalidSubnet e), self, g).
Proof.
  intros Hv Hn. unfold generate_random_ip. now rewrite Hv, Hn.
Qed.

(** A text that fails the format check raises [InvalidFormat] and leaves
    the generator as it was. *)
Lemma generate_random_ip_invalid_format self subnet g :
  validate_subnet subnet = false ->
  generate_random_ip self subnet g = (Raise InvalidFormat, self, g).
Proof. intros Hv. unfold generate_random_ip. now rewrite Hv. Qed.

Lemma out_of_bounds_raises a b c d p :
  digits_group 3 a = true -> digits_group 3 b = true ->
  digits_group 3 c = true -> digits_group 3 d = true ->
  digits_group 2 p = true ->
  out_of_bounds a b c d p ->
  exists e, IPv4Network_of_str (cidr_text a b c d p) false = Raise e.
Proof.
  intros Ha Hb Hc Hd Hp Hout.
  rewrite cidr_text_quad.
  rewrite IPv4Network_of_quad_slash; auto;
    [|absent].
  rewrite IPv4Address_of_quad by assumption.
  rewrite (_make_netmask_group p Hp). cbn [parse_octets].
  destruct (_parse_octet a) as [va|ea] eqn:Ea;
    [|cbn [bind lift_address]; eauto].
  destruct (_parse_octet b) as [vb|eb] eqn:Eb;
    [|cbn [bind lift_address]; eauto].
  destruct (_parse_octet c) as [vc|ec] eqn:Ec;
    [|cbn [bind lift_address]; eauto].
  destruct (_parse_octet d) as [vd|ed] eqn:Ed;
    [|cbn [bind lift_address]; eauto].
  cbn [bind lift_address].
  destruct Hout as [H|[H|[H|[H|H]]]].
  - destruct (_parse_octet_group a Ha H). congruence.
  - destruct (_parse_octet_group b Hb H). congruence.
  - destruct (_parse_octet_group c Hc H). congruence.
  - destruct (_parse_octet_group d Hd H). congruence.
  - unfold decimal in H.
    replace (Py.int_digits 0 p <=? 32) with false
      by (symmetry; apply Z.leb_gt; exact H).
    cbn [lift_netmask bind]. eauto.
Qed.

Lemma cidr_without_newline a b c d p :
  digits_group 3 a = true -> digits_group 3 b = true ->
  digits_group 3 c = true -> digits_group 3 d = true ->
  digits_group 2 p = true ->
  Py.contains Py.newline (cidr_text a b c d p) = false.
Proof.
  intros Ha Hb Hc Hd Hp. unfold cidr_text.
  rewrite !contains_append. cbn [Py.contains].
  rewrite !(group_without Py.newline 3) by auto with shape.
  rewrite (group_without Py.newline 2) by auto with shape.
  reflexivity.
Qed.

Lemma newline_raises a b c d p :
  digits_group 3 a = true -> digits_group 3 b = true ->
  digits_group 3 c = true -> digits_group 3 d = true ->
  digits_group 2 p = true ->
  exists e,
    IPv4Network_of_str (cidr_text a b c d p ++ String Py.newline "") false
    = Raise e.
Proof.
  intros Ha Hb Hc Hd Hp.
  rewrite cidr_text_quad, append_assoc.
  change (String "/" p ++ String Py.newline "")%string
    with (String "/" (p ++ String Py.newline "")).
  assert (Hslash : Py.contains "/" (p ++ String Py.newline "") = false).
  { rewrite contains_append.
    rewrite (group_without "/" 2) by auto with shape.
    reflexivity. }
  assert (Hdot : Py.contains "." (p ++ String Py.newline "") = false).
  { rewrite contains_append.
    rewrite (group_without "." 2) by auto with shape.
    reflexivity. }
  rewrite IPv4Network_of_quad_slash by assumption.
  destruct (IPv4Address_of_str (quad_text a b c d)) as [x|e];
    [|cbn [bind lift_address]; eauto].
  rewrite _make_netmask_not_digits; [cbn [bind lift_address lift_netmask]; eauto| |exact Hdot].
  destruct (Py.isascii (p ++ String Py.newline "")
            && Py.isdigit (p ++ String Py.newline "")) eqn:E;
    [|reflexivity].
  apply isascii_isdigit_iff in E as [_ E].
  rewrite all_chars_append in E. apply andb_true_iff in E as [_ E].
  discriminate E.
Qed.

End RejectFacts.

(** ** The canonical text of a network *)

Section CanonicalFacts.

Context {R : RandomSource}.

Open Scope Z_scope.

Import ipaddress.

(** An address that masking leaves alone has no host bit set. *)
Lemma masked_no_host_bits a p :
  0 <= a < 2 ^ 32 -> 0 <= p <= 32 ->
  Z.land a (_ip_int_from_prefix p) = a ->
  Z.land a (Z.lxor (_ip_int_from_prefix p) _ALL_ONES) = 0.
Proof.
  intros Ha Hp. destruct (masks_of_prefix p Hp) as [-> ->].
  rewrite land_ldiff_ones by assumption.
  rewrite ldiff_ones_div, Z.land_ones by lia.
  assert (0 < 2 ^ (32 - p)) by (apply Z.pow_pos_nonneg; lia).
  pose proof (Z.div_mod a (2 ^ (32 - p))). lia.
Qed.

Lemma land_netmask_idempotent a m : Z.land (Z.land a m) m = Z.land a m.
Proof. now rewrite <- Z.land_assoc, Z.land_diag. Qed.

(** The canonical text is of the lexical shape and parses to the same
    block, with the base address as the address of the text. *)
Lemma canonical_text_parses net a :
  parsed_network net a ->
  validate_subnet (canonical_text net) = true
  /\ IPv4Network_of_str (canonical_text net) false
     = Ok (mkIPv4Network (network_address net) (netmask net) (_prefixlen net)
             (str_of_address (network_address net))).
Proof.
  intros Hnet.
  destruct (block_bounds net a Hnet) as (_ & Hbc & Hs & _ & _ & _ & H0 & Hlt).
  pose proof (prefix_range net a Hnet) as Hp.
  pose proof (netmask_of_prefix net a Hnet) as Hmask.
  pose proof (address_masked net a Hnet) as Hmasked.
  assert (Hx : 0 <= network_address net < 2 ^ 32) by lia.
  destruct (to_bytes4_spec _ Hx) as [Hb _]. unfold to_bytes4 in Hb.
  inversion_clear Hb as [|? ? H3 Hb']. inversion_clear Hb' as [|? ? H2 Hb].
  inversion_clear Hb as [|? ? H1 Hb']. inversion_clear Hb' as [|? ? H0' _].
  destruct (byte_text _ H3) as [G3 _]. destruct (byte_text _ H2) as [G2 _].
  destruct (byte_text _ H1) as [G1 _]. destruct (byte_text _ H0') as [G0 _].
  destruct (prefix_text _ Hp) as [Gp Pp].
  pose proof (IPv4Address_of_str_of_address _ Hx) as Hback.
  unfold canonical_text. rewrite str_of_address_quad in *.
  change (?q ++ "/" ++ ?t)%string with (q ++ String "/" t)%string.
  split.
  - rewrite <- cidr_text_quad. now apply validate_subnet_cidr.
  - rewrite IPv4Network_of_quad_slash; auto;
      [|absent].
    rewrite Hback. cbn [lift_address bind].
    unfold _make_netmask. rewrite Pp. cbn [lift_netmask bind].
    rewrite <- Hmask.
    replace (Z.land (network_address net) (netmask net))
      with (network_address net)
      by (rewrite Hmasked; symmetry; apply land_netmask_idempotent).
    now rewrite Z.eqb_refl.
Qed.

(** Up to /31 the hosts depend on the block only, not on the address the
    text was written with. *)
Lemma hosts_of_block net net' :
  network_address net' = network_address net ->
  netmask net' = netmask net ->
  _prefixlen net' = _prefixlen net ->
  _prefixlen net <> 32 ->
  hosts net' = hosts net.
Proof.
  intros Hna Hnm Hp H32.
  unfold hosts, iter, broadcast_address, hostmask, _max_prefixlen, IPV4LENGTH.
  rewrite Hna, Hnm, Hp.
  destruct (_prefixlen net =? 32 - 1); [reflexivity|].
  destruct (Z.eqb_spec (_prefixlen net) 32); [contradiction | reflexivity].
Qed.

End CanonicalFacts.

(** * The claims *)

Section Claims.

Context {R : RandomSource}.

Open Scope Z_scope.

Import ipaddress.

(** What a successful call looks like, for the statements below: it
    returns the text of [x], appends it to the history next to [subnet],
    and [x] is a host of the network that reads back from its text. *)
Lemma generate_random_ip_host self subnet g net :
  validate_subnet subnet = true ->
  IPv4Network_of_str subnet false = Ok net ->
  exists x l g',
    hosts net = Ok l /\ In x l
    /\ generate_random_ip self subnet g
       = (Ok (str_of_address x),
          mkIPGenerator (history self ++ [(subnet, str_of_address x)]), g')
    /\ IPv4Address_of_str (str_of_address x) = Ok x
    /\ in_block net x
    /\ network_address net <= x <= broadcast_address net
    /\ (_prefixlen net <= 30 ->
        network_address net < x < broadcast_address net).
Proof.
  intros Hv Hn.
  destruct (IPv4Network_parsed _ _ _ Hn) as [a Hparsed].
  destruct (hosts_parsed net a Hparsed) as (x0 & l & Hh & Hin).
  pose proof (generate_random_ip_returns self subnet g net x0 l Hv Hn Hh)
    as Hgen. cbv zeta in Hgen.
  pose proof (choice_In x0 l g) as Hx.
  set (x := nth (fst (_randbelow (List.length (x0 :: l)) g)) (x0 :: l) x0)
    in *.
  destruct (Hin x Hx) as [Hbetween Hstrict].
  pose proof (between_in_block net a x Hparsed Hbetween) as Hblock.
  exists x, (x0 :: l), (snd (_randbelow (List.length (x0 :: l)) g)).
  split; [exact Hh|]. split; [exact Hx|]. split; [exact Hgen|].
  split; [apply IPv4Address_of_str_of_address, Hblock|].
  split; [exact Hblock|]. split; [exact Hbetween | exact Hstrict].
Qed.

(** C1: for every subnet text that passes the format check and parses to a
    network of prefix length at most 30, [generate_random_ip] returns the
    text of an address of the block that is strictly between the network
    address and the broadcast address; for ["192.168.1.0/24"] the result is
    [192.168.1.k] with [1 <= k <= 254]. *)
Theorem generate_random_ip_strictly_inside self subnet g net :
  validate_subnet subnet = true ->
  IPv4Network_of_str subnet false = Ok net ->
  _prefixlen net <= 30 ->
  exists x g',
    generate_random_ip self subnet g
    = (Ok (str_of_address x),
       mkIPGenerator (history self ++ [(subnet, str_of_address x)]), g')
    /\ IPv4Address_of_str (str_of_address x) = Ok x
    /\ in_block net x
    /\ network_address net < x < broadcast_address net
    /\ (subnet = "192.168.1.0/24"%string ->
        exists k, 1 <= k <= 254
          /\ str_of_address x = ("192.168.1." ++ Py.str k)%string).
Proof.
  intros Hv Hn H30.
  destruct (generate_random_ip_host self subnet g net Hv Hn)
    as (x & l & g' & _ & _ & Hgen & Hback & Hblock & _ & Hstrict).
  specialize (Hstrict H30).
  exists x, g'. split; [exact Hgen|]. split; [exact Hback|].
  split; [exact Hblock|]. split; [exact Hstrict|].
  intros ->.
  assert (Hnet : net = mkIPv4Network 3232235776 4294967040 24 "192.168.1.0").
  { assert (E : IPv4Network_of_str "192.168.1.0/24" false
                = Ok (mkIPv4Network 3232235776 4294967040 24 "192.168.1.0"))
      by (vm_compute; reflexivity).
    congruence. }
  subst net.
  change (network_address _) with 3232235776 in Hstrict.
  change (broadcast_address _) with 3232236031 in Hstrict.
  exists (x - 3232235776). split; [lia|].
  rewrite str_of_address_quad, !Z.shiftr_div_pow2 by lia.
  change (2 ^ 24) with 16777216. change (2 ^ 16) with 65536.
  change (2 ^ 8) with 256.
  replace (x / 16777216 mod 256) with 192
    by (Z.div_mod_to_equations; lia).
  replace (x / 65536 mod 256) with 168 by (Z.div_mod_to_equations; lia).
  replace (x / 256 mod 256) with 1 by (Z.div_mod_to_equations; lia).
  replace (x mod 256) with (x - 3232235776)
    by (Z.div_mod_to_equations; lia).
  reflexivity.
Qed.

(** C2, as amended: for every subnet text that passes the format check and
    parses to a /31 or a /32, [generate_random_ip] does not raise: it
    returns the single address of a /32, or one of the two addresses of a
    /31, and appends it to the history. *)
Theorem generate_random_ip_slash31_slash32 self subnet g net :
  validate_subnet subnet = true ->
  IPv4Network_of_str subnet false = Ok net ->
  31 <= _prefixlen net ->
  exists x g',
    generate_random_ip self subnet g
    = (Ok (str_of_address x),
       mkIPGenerator (history self ++ [(subnet, str_of_address x)]), g')
    /\ in_block net x
    /\ (_prefixlen net = 32 -> x = network_address net)
    /\ (_prefixlen net = 31 ->
        x = network_address net \/ x = network_address net + 1).
Proof.
  intros Hv Hn H31.
  destruct (generate_random_ip_host self subnet g net Hv Hn)
    as (x & l & g' & _ & _ & Hgen & _ & Hblock & Hbetween & _).
  destruct (IPv4Network_parsed _ _ _ Hn) as [a Hparsed].
  destruct (block_bounds net a Hparsed)
    as (_ & Hbc & _ & _ & Hs2 & Hs1 & _ & _).
  exists x, g'. split; [exact Hgen|]. split; [exact Hblock|].
  split; intros E; specialize (Hs2 E) || specialize (Hs1 E); lia.
Qed.

(** C3: when the text passes the format check and parses, the host list is
    not empty, so the "No usable hosts" branch is not taken: the call
    raises no [NoUsableHosts]. *)
Theorem no_usable_hosts_unreachable self subnet g net :
  validate_subnet subnet = true ->
  IPv4Network_of_str subnet false = Ok net ->
  (exists x l, hosts net = Ok (x :: l))
  /\ forall s, fst (fst (generate_random_ip self subnet g))
               <> Raise (NoUsableHosts s).
Proof.
  intros Hv Hn.
  destruct (IPv4Network_parsed _ _ _ Hn) as [a Hparsed].
  destruct (hosts_parsed net a Hparsed) as (x & l & Hh & _).
  split; [eauto|]. intros s.
  rewrite (generate_random_ip_returns self subnet g net x l Hv Hn Hh).
  discriminate.
Qed.

(** C5: [validate_subnet] accepts every text [a.b.c.d/p] of four groups of
    one to three digits and a group of one or two digits, whatever numbers
    they write; when an octet exceeds 255 or the prefix exceeds 32 the call
    passes the format check and fails in the constructor, with
    [InvalidSubnet]. *)
Theorem validate_subnet_is_syntactic self g a b c d p :
  digits_group 3 a = true -> digits_group 3 b = true ->
  digits_group 3 c = true -> digits_group 3 d = true ->
  digits_group 2 p = true ->
  validate_subnet (cidr_text a b c d p) = true
  /\ (out_of_bounds a b c d p ->
      exists e,
        generate_random_ip self (cidr_text a b c d p) g
        = (Raise (InvalidSubnet e), self, g)).
Proof.
  intros Ha Hb Hc Hd Hp.
  pose proof (validate_subnet_cidr a b c d p Ha Hb Hc Hd Hp) as Hv.
  split; [exact Hv|]. intros Hout.
  destruct (out_of_bounds_raises a b c d p Ha Hb Hc Hd Hp Hout) as [e He].
  exists e. now apply generate_random_ip_invalid_subnet.
Qed.

(** C10: a text of the lexical shape followed by one newline is not of the
    shape, yet [validate_subnet] accepts it; the call goes on to the
    constructor, which rejects it, so the error is [InvalidSubnet] and not
    [InvalidFormat]. *)
Theorem trailing_newline_passes_validation self g t :
  lexical_shape t = true ->
  lexical_shape (t ++ String Py.newline "") = false
  /\ validate_subnet (t ++ String Py.newline "") = true
  /\ exists e,
       generate_random_ip self (t ++ String Py.newline "") g
       = (Raise (InvalidSubnet e), self, g).
Proof.
  intros Ht.
  assert (Hv : validate_subnet (t ++ String Py.newline "") = true).
  { apply validate_subnet_shape. right. eauto. }
  split; [|split; [exact Hv|]].
  - destruct (lexical_shape (t ++ String Py.newline "")) eqn:E;
      [|reflexivity].
    apply lexical_shape_iff in E
      as (a & b & c & d & p & E & Ha & Hb & Hc & Hd & Hp).
    pose proof (cidr_without_newline a b c d p Ha Hb Hc Hd Hp) as Hnl.
    rewrite <- E, contains_append in Hnl. cbn [Py.contains] in Hnl.
    rewrite Ascii.eqb_refl, orb_true_r in Hnl. discriminate.
  - apply lexical_shape_iff in Ht
      as (a & b & c & d & p & -> & Ha & Hb & Hc & Hd & Hp).
    destruct (newline_raises a b c d p Ha Hb Hc Hd Hp) as [e He].
    exists e. now apply generate_random_ip_invalid_subnet.
Qed.

(** C6: a text [a.b.c.d/p] of the lexical shape whose address and prefix
    length parse and whose address has host bits set below the prefix is
    not rejected: the constructor masks the address down to the base of
    the block (with [strict] it would raise), and the call returns the same
    address as the call on the canonical text of the block, from the same
    state of the random source. *)
Theorem host_bits_are_masked self g a b c d p address prefixlen :
  digits_group 3 a = true -> digits_group 3 b = true ->
  digits_group 3 c = true -> digits_group 3 d = true ->
  digits_group 2 p = true ->
  IPv4Address_of_str (quad_text a b c d) = Ok address ->
  _prefix_from_prefix_string p = Ok prefixlen ->
  Z.land address (Z.lxor (_ip_int_from_prefix prefixlen) _ALL_ONES) <> 0 ->
  let subnet := cidr_text a b c d p in
  exists net,
    IPv4Network_of_str subnet false = Ok net
    /\ IPv4Network_of_str subnet true = Raise (HostBitsSet subnet)
    /\ _prefixlen net = prefixlen
    /\ network_address net = Z.land address (netmask net)
    /\ network_address net <> address
    /\ validate_subnet (canonical_text net) = true
    /\ (exists net',
          IPv4Network_of_str (canonical_text net) false = Ok net'
          /\ network_address net' = network_address net
          /\ netmask net' = netmask net
          /\ _prefixlen net' = _prefixlen net)
    /\ exists x g',
         generate_random_ip self subnet g
         = (Ok (str_of_address x),
            mkIPGenerator (history self ++ [(subnet, str_of_address x)]),
            g')
         /\ generate_random_ip self (canonical_text net) g
            = (Ok (str_of_address x),
               mkIPGenerator
                 (history self ++ [(canonical_text net, str_of_address x)]),
               g')
         /\ in_block net x.
Proof.
  intros Ha Hb Hc Hd Hp Haddr Hpre Hbits subnet.
  pose proof (IPv4Address_of_str_range _ _ Haddr) as Hrange.
  pose proof (_prefix_from_prefix_string_range _ _ Hpre) as Hprange.
  set (nm := _ip_int_from_prefix prefixlen) in *.
  assert (Hne : Z.land address nm <> address).
  { intros E. apply Hbits. now apply masked_no_host_bits. }
  assert (Hslash : Py.contains "/" p = false)
    by absent.
  assert (Hmk : _make_netmask (MaskStr p) = Ok (nm, prefixlen)).
  { unfold _make_netmask. now rewrite Hpre. }
  set (net := mkIPv4Network (Z.land address nm) nm prefixlen
                (quad_text a b c d)).
  assert (Hctor : forall strict,
    IPv4Network_of_str subnet strict
    = if strict then Raise (HostBitsSet subnet) else Ok net).
  { intros strict. subst subnet. rewrite cidr_text_quad.
    rewrite IPv4Network_of_quad_slash by assumption.
    rewrite Haddr, Hmk. cbn [lift_address lift_netmask bind].
    replace (Z.land address nm =? address) with false
      by (symmetry; apply Z.eqb_neq; exact Hne).
    reflexivity. }
  pose proof (Hctor false) as Hn. cbv iota in Hn.
  destruct (IPv4Network_parsed _ _ _ Hn) as [a0 Hparsed].
  destruct (canonical_text_parses net a0 Hparsed) as [Hcv Hcn].
  assert (Hv : validate_subnet subnet = true)
    by now apply validate_subnet_cidr.
  assert (H32 : _prefixlen net <> 32).
  { cbn [_prefixlen net]. intros ->. apply Hbits. subst nm.
    change (Z.lxor (_ip_int_from_prefix 32) _ALL_ONES) with 0.
    apply Z.land_0_r. }
  exists net.
  split; [exact Hn|]. split; [exact (Hctor true)|].
  split; [reflexivity|]. split; [reflexivity|]. split; [exact Hne|].
  split; [exact Hcv|]. split; [eauto|].
  destruct (hosts_parsed net a0 Hparsed) as (x0 & l0 & Hh0 & Hall).
  set (net' := mkIPv4Network (network_address net) (netmask net)
                 (_prefixlen net) (str_of_address (network_address net)))
    in *.
  assert (Hh' : hosts net' = Ok (x0 :: l0)).
  { rewrite <- Hh0. now apply hosts_of_block. }
  exists (nth (fst (_randbelow (List.length (x0 :: l0)) g)) (x0 :: l0) x0),
    (snd (_randbelow (List.length (x0 :: l0)) g)).
  split; [exact (generate_random_ip_returns self subnet g net x0 l0 Hv Hn Hh0)|].
  split; [exact (generate_random_ip_returns self _ g net' x0 l0 Hcv Hcn Hh')|].
  apply (between_in_block net a0); [exact Hparsed|].
  apply Hall, choice_In.
Qed.

(** C9: [clear_history] is total: it returns on every generator and leaves
    the history empty; on a generator whose history is already empty it
    changes nothing, and done twice it is the same as done once. *)
Theorem clear_history_idempotent (self : IPGenerator) :
  get_history (clear_history self) = []
  /\ clear_history (mkIPGenerator []) = mkIPGenerator []
  /\ clear_history (clear_history self) = clear_history self.
Proof. repeat split. Qed.

(** A call that returns puts a pair of the invariant into the history. *)
Lemma generate_random_ip_in_host_range self subnet g ip self' g' :
  generate_random_ip self subnet g = (Ok ip, self', g') ->
  in_host_range subnet ip.
Proof.
  intros Hgen.
  assert (Hv : validate_subnet subnet = true).
  { unfold generate_random_ip in Hgen.
    destruct (validate_subnet subnet); [reflexivity | discriminate]. }
  destruct (IPv4Network_of_str subnet false) as [net|e] eqn:Hn.
  - destruct (generate_random_ip_host self subnet g net Hv Hn)
      as (x & l & g0 & Hh & Hx & Hgen' & Hback & Hblock & _ & _).
    assert (E : ip = str_of_address x) by congruence. subst ip.
    exists net, l, x. auto.
  - rewrite (generate_random_ip_invalid_subnet self subnet g e Hv Hn) in Hgen.
    discriminate.
Qed.

Lemma do_call_invariant c st :
  history_invariant (fst st) -> history_invariant (fst (do_call c st)).
Proof.
  intros Hinv. destruct st as [self g]. destruct c as [subnet| |].
  - cbn [do_call fst snd].
    destruct (generate_random_ip self subnet g) as [[[ip|e] self'] g'] eqn:E;
      cbn [fst].
    + unfold history_invariant.
      rewrite (generate_random_ip_appends _ _ _ _ _ _ E).
      apply Forall_app. split; [exact Hinv|].
      constructor; [|constructor].
      exact (generate_random_ip_in_host_range _ _ _ _ _ _ E).
    + now destruct (generate_random_ip_raises _ _ _ _ _ _ E) as [-> _].
  - exact Hinv.
  - constructor.
Qed.

Lemma fold_calls_invariant calls : forall st,
  history_invariant (fst st) ->
  history_invariant (fst (fold_left (fun st c => do_call c st) calls st)).
Proof.
  induction calls as [|c calls IH]; intros st Hinv; [exact Hinv|].
  cbn [fold_left]. apply IH, do_call_invariant, Hinv.
Qed.

(** C7: in every session, that is after any sequence of
    [generate_random_ip], [get_history] and [clear_history] calls on a
    fresh generator, each pair (subnet, ip) of the history is such that
    [subnet] parses to a network and [ip] to one of its hosts, an address
    of its block. *)
Theorem history_invariant_holds (calls : list call) (g : rng_state) :
  history_invariant (fst (session calls g)).
Proof. apply fold_calls_invariant. constructor. Qed.

Lemma generate_each_history subnets : forall self g,
  history (snd (fst (generate_each subnets self g)))
  = (history self ++ returned (fst (fst (generate_each subnets self g))))%list.
Proof.
  induction subnets as [|subnet rest IH]; intros self g;
    cbn [generate_each].
  - cbn [fst snd returned]. now rewrite app_nil_r.
  - destruct (generate_random_ip self subnet g) as [[r self'] g'] eqn:E.
    specialize (IH self' g').
    destruct (generate_each rest self' g') as [[log self''] g''].
    cbn [fst snd] in *. rewrite IH. destruct r as [ip|e]; cbn [returned].
    + rewrite (generate_random_ip_appends _ _ _ _ _ _ E).
      now rewrite <- app_assoc.
    + now destruct (generate_random_ip_raises _ _ _ _ _ _ E) as [-> _].
Qed.

Lemma generate_each_log subnets : forall self g,
  map fst (fst (fst (generate_each subnets self g))) = subnets.
Proof.
  induction subnets as [|subnet rest IH]; intros self g;
    cbn [generate_each]; [reflexivity|].
  destruct (generate_random_ip self subnet g) as [[r self'] g'].
  specialize (IH self' g').
  destruct (generate_each rest self' g') as [[log self''] g''].
  cbn [fst snd map] in *. now rewrite IH.
Qed.

Lemma returned_length log :
  List.length (returned log)
  = List.length (filter (fun e => match snd e with
                                  | Ok _ => true
                                  | Raise _ => false
                                  end) log).
Proof.
  induction log as [|[subnet [ip|e]] log IH]; cbn [returned filter snd];
    [reflexivity | cbn [List.length]; now rewrite IH | exact IH].
Qed.

(** C8: after [generate_random_ip] on each of [subnets] in turn, on a fresh
    generator, [get_history] is the list of the pairs (argument, returned
    address) of the calls that returned, in call order, so it has as many
    entries as calls returned; the calls that raised added nothing; after
    [clear_history], [get_history] is empty. *)
Theorem history_round_trip (subnets : list string) (g : rng_state) :
  let log := fst (fst (generate_each subnets __init__ g)) in
  let self := snd (fst (generate_each subnets __init__ g)) in
  map fst log = subnets
  /\ get_history self = returned log
  /\ List.length (get_history self)
     = List.length (filter (fun e => match snd e with
                                     | Ok _ => true
                                     | Raise _ => false
                                     end) log)
  /\ get_history (clear_history self) = [].
Proof.
  cbv zeta. split; [apply generate_each_log|].
  assert (H : get_history (snd (fst (generate_each subnets __init__ g)))
              = returned (fst (fst (generate_each subnets __init__ g)))).
  { unfold get_history. now rewrite generate_each_history. }
  split; [exact H|]. split; [|reflexivity].
  rewrite H. apply returned_length.
Qed.

End Claims.

(** * The claims at concrete inputs *)

Lemma generate_random_ip_strictly_inside_witness :
  exists x g',
    generate_random_ip (R := random.counter) __init__ "192.168.1.0/24" 5%nat
    = (Ok (ipaddress.str_of_address x),
       mkIPGenerator [("192.168.1.0/24", ipaddress.str_of_address x)], g')
    /\ ipaddress.IPv4Address_of_str (ipaddress.str_of_address x) = Ok x
    /\ in_block
         (ipaddress.mkIPv4Network 3232235776%Z 4294967040%Z 24%Z "192.168.1.0") x
    /\ (3232235776 < x < 3232236031)%Z
    /\ ("192.168.1.0/24" = "192.168.1.0/24" ->
        exists k, (1 <= k <= 254)%Z
          /\ ipaddress.str_of_address x = "192.168.1." ++ Py.str k).
Proof.
  apply (generate_random_ip_strictly_inside (R := random.counter) __init__
           "192.168.1.0/24" 5%nat
           (ipaddress.mkIPv4Network 3232235776%Z 4294967040%Z 24%Z "192.168.1.0")).
  - vm_compute. reflexivity.
  - vm_compute. reflexivity.
  - vm_compute. discriminate.
Defined.

(** C2 as stated fails: the call on ["10.0.0.0/32"], a text that passes the
    format check, returns ["10.0.0.0"] and raises nothing. *)
Lemma slash32_is_not_rejected :
  validate_subnet "10.0.0.0/32" = true
  /\ generate_random_ip (R := random.counter) __init__ "10.0.0.0/32" 0%nat
     = (Ok "10.0.0.0", mkIPGenerator [("10.0.0.0/32", "10.0.0.0")], 1%nat)
  /\ fst (fst (generate_random_ip (R := random.counter) __init__
                 "10.0.0.0/32" 0%nat))
     <> Raise (NoUsableHosts "10.0.0.0/32").
Proof.
  split; [vm_compute; reflexivity|].
  split; [vm_compute; reflexivity|].
  vm_compute. discriminate.
Qed.

Lemma generate_random_ip_slash31_slash32_witness :
  exists x g',
    generate_random_ip (R := random.counter) __init__ "10.0.0.1/31" 1%nat
    = (Ok (ipaddress.str_of_address x),
       mkIPGenerator [("10.0.0.1/31", ipaddress.str_of_address x)], g')
    /\ in_block
         (ipaddress.mkIPv4Network 167772160%Z 4294967294%Z 31%Z "10.0.0.1") x
    /\ (31 = 32 -> x = 167772160)%Z
    /\ (31 = 31 -> x = 167772160 \/ x = 167772160 + 1)%Z.
Proof.
  apply (generate_random_ip_slash31_slash32 (R := random.counter) __init__
           "10.0.0.1/31" 1%nat
           (ipaddress.mkIPv4Network 167772160%Z 4294967294%Z 31%Z
              "10.0.0.1")).
  - vm_compute. reflexivity.
  - vm_compute. reflexivity.
  - vm_compute. discriminate.
Defined.

Lemma no_usable_hosts_unreachable_witness :
  (exists x l,
     ipaddress.hosts
       (ipaddress.mkIPv4Network 167772160%Z 4294967295%Z 32%Z "10.0.0.0")
     = Ok (x :: l))
  /\ forall s,
       fst (fst (generate_random_ip (R := random.counter) __init__
                   "10.0.0.0/32" 0%nat))
       <> Raise (NoUsableHosts s).
Proof.
  apply (no_usable_hosts_unreachable (R := random.counter) __init__
           "10.0.0.0/32" 0%nat
           (ipaddress.mkIPv4Network 167772160%Z 4294967295%Z 32%Z
              "10.0.0.0")).
  - vm_compute. reflexivity.
  - vm_compute. reflexivity.
Defined.

Lemma validate_subnet_is_syntactic_witness :
  validate_subnet "999.999.999.999/99" = true
  /\ exists e,
       generate_random_ip (R := random.counter) __init__ "999.999.999.999/99"
         0%nat
       = (Raise (InvalidSubnet e), __init__, 0%nat).
Proof.
  destruct (validate_subnet_is_syntactic (R := random.counter) __init__ 0%nat
              "999" "999" "999" "999" "99")
    as [Hv Hraise]; try (vm_compute; reflexivity).
  split; [exact Hv|]. apply Hraise.
  left. vm_compute. reflexivity.
Defined.

Lemma trailing_newline_passes_validation_witness :
  lexical_shape ("192.168.1.0/24" ++ String Py.newline "") = false
  /\ validate_subnet ("192.168.1.0/24" ++ String Py.newline "") = true
  /\ exists e,
       generate_random_ip (R := random.counter) __init__
         ("192.168.1.0/24" ++ String Py.newline "") 0%nat
       = (Raise (InvalidSubnet e), __init__, 0%nat).
Proof.
  apply (trailing_newline_passes_validation (R := random.counter) __init__ 0%nat
           "192.168.1.0/24").
  vm_compute. reflexivity.
Defined.

(** C4 fails on the code: ["192.168.1.0/24"] followed by a newline is not
    of the lexical shape, and the call does not raise [InvalidFormat]: it
    passes the format check and the constructor raises, which gives
    [InvalidSubnet]. *)
Lemma trailing_newline_is_not_invalid_format :
  lexical_shape ("192.168.1.0/24" ++ String Py.newline "") = false
  /\ generate_random_ip (R := random.counter) __init__
       ("192.168.1.0/24" ++ String Py.newline "") 0%nat
     = (Raise (InvalidSubnet
                 (ipaddress.NetmaskError
                    (ipaddress.NotAValidNetmask
                       ("24" ++ String Py.newline "")))),
        __init__, 0%nat).
Proof. split; vm_compute; reflexivity. Qed.

Lemma host_bits_are_masked_witness :
  exists net,
    ipaddress.IPv4Network_of_str (cidr_text "192" "168" "1" "5" "24") false
    = Ok net
    /\ ipaddress.IPv4Network_of_str (cidr_text "192" "168" "1" "5" "24") true
       = Raise (ipaddress.HostBitsSet (cidr_text "192" "168" "1" "5" "24"))
    /\ ipaddress._prefixlen net = 24%Z
    /\ ipaddress.network_address net
       = Z.land 3232235781 (ipaddress.netmask net)
    /\ ipaddress.network_address net <> 3232235781%Z
    /\ validate_subnet (canonical_text net) = true
    /\ (exists net',
          ipaddress.IPv4Network_of_str (canonical_text net) false = Ok net'
          /\ ipaddress.network_address net' = ipaddress.network_address net
          /\ ipaddress.netmask net' = ipaddress.netmask net
          /\ ipaddress._prefixlen net' = ipaddress._prefixlen net)
    /\ exists x g',
         generate_random_ip (R := random.counter) __init__
           (cidr_text "192" "168" "1" "5" "24") 7%nat
         = (Ok (ipaddress.str_of_address x),
            mkIPGenerator
              [(cidr_text "192" "168" "1" "5" "24",
                ipaddress.str_of_address x)],
            g')
         /\ generate_random_ip (R := random.counter) __init__
              (canonical_text net) 7%nat
            = (Ok (ipaddress.str_of_address x),
               mkIPGenerator [(canonical_text net, ipaddress.str_of_address x)],
               g')
         /\ in_block net x.
Proof.
  apply (host_bits_are_masked (R := random.counter) __init__ 7%nat
           "192" "168" "1" "5" "24" 3232235781%Z 24%Z);
    try (vm_compute; reflexivity).
  vm_compute. discriminate.
Defined.

(** * Further properties of the generator *)

Section GeneratorProperties.

Context {R : RandomSource}.

Open Scope Z_scope.

Import ipaddress.


(** X2: the three outcomes of [generate_random_ip].  It returns exactly
    when the text passes the format check and the constructor accepts it;
    it raises [InvalidFormat] exactly when the format check fails; it
    raises [InvalidSubnet] around [e] exactly when the format check passes
    and the constructor raises [e]. *)
Theorem generate_random_ip_outcome self subnet g :
  ((exists ip self' g',
      generate_random_ip self subnet g = (Ok ip, self', g'))
   <-> validate_subnet subnet = true
       /\ exists net, IPv4Network_of_str subnet false = Ok net)
  /\ (fst (fst (generate_random_ip self subnet g)) = Raise InvalidFormat
      <-> validate_subnet subnet = false)
  /\ forall e,
       fst (fst (generate_random_ip self subnet g)) = Raise (InvalidSubnet e)
       <-> validate_subnet subnet = true
           /\ IPv4Network_of_str subnet false = Raise e.
Proof.
  destruct (validate_subnet subnet) eqn:Hv.
  - destruct (IPv4Network_of_str subnet false) as [net|e0] eqn:Hn.
    + destruct (generate_random_ip_host self subnet g net Hv Hn)
        as (x & l & g' & _ & _ & Hgen & _).
      rewrite Hgen. cbn [fst]. split; [|split].
      * split; [eauto | intros _; eauto].
      * split; discriminate.
      * intros e. split; [discriminate | intros [_ H]; discriminate].
    + rewrite (generate_random_ip_invalid_subnet self subnet g e0 Hv Hn).
      cbn [fst]. split; [|split].
      * split; [intros (? & ? & ? & H); discriminate
               | intros [_ [net H]]; discriminate].
      * split; discriminate.
      * intros e. split; [intros [= ->]; auto | intros [_ [= ->]]; auto].
  - rewrite (generate_random_ip_invalid_format self subnet g Hv).
    cbn [fst]. split; [|split].
    + split; [intros (? & ? & ? & H); discriminate
             | intros [H _]; discriminate].
    + split; reflexivity.
    + intros e. split; [discriminate | intros [H _]; discriminate].
Qed.

(** X3: what one call does to the generator, whatever its history: a call
    that returns appends its own pair after the entries already there, a
    call that raises leaves the history as it was, and a call that raises
    draws nothing from the random source. *)
Theorem generate_random_ip_effect self subnet g :
  let r := fst (fst (generate_random_ip self subnet g)) in
  let self' := snd (fst (generate_random_ip self subnet g)) in
  let g' := snd (generate_random_ip self subnet g) in
  history self' = (history self ++ returned [(subnet, r)])%list
  /\ ((exists e, r = Raise e) -> self' = self /\ g' = g).
Proof.
  cbv zeta.
  destruct (generate_random_ip self subnet g) as [[[ip|e] self'] g'] eqn:E;
    cbn [fst snd returned].
  - split; [exact (generate_random_ip_appends _ _ _ _ _ _ E)|].
    intros [e He]. discriminate.
  - destruct (generate_random_ip_raises _ _ _ _ _ _ E) as [-> ->].
    split; [now rewrite app_nil_r | auto].
Qed.

End GeneratorProperties.



(** * The interactive loop *)

(** ** What [strip] and [lower] leave of a line *)

Section InputFacts.





End InputFacts.


(** ** One turn of the loop *)

(** Splits a goal about [iteration w] into the eight ways through one
    turn: end of input, "exit", "history" on an empty and on a non-empty
    history, "clear", a text that generates, a text that raises, Ctrl-C. *)
Ltac turn_cases w :=
  unfold iteration;
  cbn [print set_stdin set_generator set_clipboard
       stdin stdout generator random_state clipboard];
  let text := fresh "text" in
  let rest := fresh "rest" in
  let Hstdin := fresh "Hstdin" in
  destruct (stdin w) as [|[text|] rest] eqn:Hstdin;
  [ |
    fold (user_input_of text);
    destruct (String.eqb (user_input_of text) "exit") eqn:?Hexit;
    [ |
      destruct (String.eqb (user_input_of text) "history") eqn:?Hhist;
      [ destruct (get_history (generator w)) eqn:?Hh
      | destruct (String.eqb (user_input_of text) "clear") eqn:?Hclear;
        [ |
          let random_ip := fresh "random_ip" in
          let e := fresh "e" in
          let self' := fresh "self'" in
          let g' := fresh "g'" in
          destruct (generate_random_ip (generator w) (user_input_of text)
                      (random_state w))
            as [[[random_ip|e] self'] g'] eqn:?Hgen;
          [ destruct (copy_to_clipboard random_ip (clipboard w)) eqn:?Hcopy
          | ] ] ] ]
  | ];
  cbn [fst snd print set_stdin set_generator set_clipboard
       stdin stdout generator random_state clipboard];
  rewrite ?Hstdin.

Section TurnFacts.

Context {R : RandomSource} {C : Pyperclip}.

Lemma print_history_fields h : forall w,
  generator (print_history h w) = generator w
  /\ random_state (print_history h w) = random_state w
  /\ clipboard (print_history h w) = clipboard w
  /\ stdin (print_history h w) = stdin w
  /\ stdout (print_history h w)
     = (stdout w ++ map (fun e => HistoryLine (fst e) (snd e)) h)%list.
Proof.
  induction h as [|e h IH]; intros w; cbn [print_history fold_left map].
  - now rewrite app_nil_r.
  - destruct (IH (print (HistoryLine (fst e) (snd e)) w))
      as (Hg & Hr & Hc & Hi & Ho).
    unfold print_history in *. rewrite Hg, Hr, Hc, Hi, Ho.
    cbn [print generator random_state clipboard stdin stdout].
    now rewrite <- app_assoc.
Qed.

(** Whether a turn leaves the loop is decided by the event it reads. *)
Lemma iteration_control w :
  fst (iteration w)
  = match stdin w with
    | e :: _ => if ends_loop e then Break else Continue
    | [] => Continue
    end.
Proof.
  turn_cases w; cbn [ends_loop]; rewrite ?Hexit; reflexivity.
Qed.

(** A turn reads one event, if there is one. *)
Lemma iteration_stdin w : stdin (snd (iteration w)) = tl (stdin w).
Proof.
  turn_cases w; try reflexivity.
  apply print_history_fields.
Qed.

(** What a turn does to the generator and the random source is the call
    its line stands for. *)
Lemma iteration_generator w :
  (generator (snd (iteration w)), random_state (snd (iteration w)))
  = match stdin w with
    | Line text :: _ =>
        if ends_loop (Line text) then (generator w, random_state w)
        else do_call (call_of_line text) (generator w, random_state w)
    | _ => (generator w, random_state w)
    end.
Proof.
  turn_cases w; unfold call_of_line; cbn [ends_loop do_call fst snd];
    rewrite ?Hexit, ?Hhist, ?Hclear; cbn [do_call fst snd];
    rewrite ?Hgen; try reflexivity.
  match goal with
  | |- context [print_history ?h ?v] =>
      destruct (print_history_fields h v) as (-> & -> & _)
  end.
  reflexivity.
Qed.

End TurnFacts.

(** ** The loop *)

Section LoopFacts.

Context {R : RandomSource} {C : Pyperclip}.

Lemma loop_S turns w :
  loop (S turns) w
  = if match fst (iteration w) with Break => true | Continue => false end
    then (Break, snd (iteration w))
    else loop turns (snd (iteration w)).
Proof.
  cbn [loop]. now destruct (iteration w) as [[|] w'].
Qed.

(** What every turn keeps, every run of the loop keeps. *)
Lemma loop_keeps (P : Process -> Prop) :
  (forall w, P w -> P (snd (iteration w))) ->
  forall turns w, P w -> P (snd (loop turns w)).
Proof.
  intros Hstep. induction turns as [|turns IH]; intros w Hw; [exact Hw|].
  rewrite loop_S. destruct (fst (iteration w)); cbn [snd]; auto.
Qed.

Lemma generated_since_clear_snoc out p :
  generated_since_clear (out ++ [p])
  = match p with
    | HistoryCleared => []
    | RandomIp user_input random_ip =>
        (generated_since_clear out ++ [(user_input, random_ip)])%list
    | _ => generated_since_clear out
    end.
Proof.
  unfold generated_since_clear. rewrite fold_left_app. reflexivity.
Qed.

Lemma generated_since_clear_history h : forall out,
  generated_since_clear
    (out ++ map (fun e => HistoryLine (fst e) (snd e)) h)
  = generated_since_clear out.
Proof.
  induction h as [|e h IH]; intros out; cbn [map].
  - now rewrite app_nil_r.
  - change (?x :: ?l) with ([x] ++ l)%list. rewrite app_assoc, IH.
    apply generated_since_clear_snoc.
Qed.

Lemma last_generated_snoc out p :
  last_generated (out ++ [p])
  = match p with
    | RandomIp _ random_ip => Some random_ip
    | _ => last_generated out
    end.
Proof.
  unfold last_generated. rewrite fold_left_app. reflexivity.
Qed.

Lemma last_generated_history h : forall out,
  last_generated (out ++ map (fun e => HistoryLine (fst e) (snd e)) h)
  = last_generated out.
Proof.
  induction h as [|e h IH]; intros out; cbn [map].
  - now rewrite app_nil_r.
  - change (?x :: ?l) with ([x] ++ l)%list. rewrite app_assoc, IH.
    apply last_generated_snoc.
Qed.

(** A turn keeps the history equal to what the output shows. *)
Lemma iteration_history_matches w :
  history (generator w) = generated_since_clear (stdout w) ->
  history (generator (snd (iteration w)))
  = generated_since_clear (stdout (snd (iteration w))).
Proof.
  intros Hw. turn_cases w;
    repeat (rewrite generated_since_clear_snoc; cbv iota); auto.
  - match goal with
    | |- context [print_history ?h ?v] =>
        destruct (print_history_fields h v) as (-> & _ & _ & _ & ->)
    end.
    cbn [print set_stdin generator stdout].
    rewrite generated_since_clear_history.
    now repeat (rewrite generated_since_clear_snoc; cbv iota).
  - match goal with |- context [if ?b then _ else _] => destruct b end;
      repeat (rewrite generated_since_clear_snoc; cbv iota);
      rewrite <- Hw; exact (generate_random_ip_appends _ _ _ _ _ _ Hgen).
  - now destruct (generate_random_ip_raises _ _ _ _ _ _ Hgen) as [-> _].
Qed.

(** A turn that leaves the loop says so. *)
Lemma iteration_break_prints w :
  fst (iteration w) = Break ->
  exists out,
    stdout (snd (iteration w)) = (out ++ [Farewell])%list
    \/ stdout (snd (iteration w)) = (out ++ [Interrupted])%list.
Proof.
  turn_cases w; intros H; try discriminate H; eauto.
Qed.

Lemma iteration_history_invariant w :
  history_invariant (generator w) ->
  history_invariant (generator (snd (iteration w))).
Proof.
  intros Hw.
  pose proof (iteration_generator w) as Hg.
  destruct (stdin w) as [|[text|] rest].
  - injection Hg as -> _. exact Hw.
  - destruct (ends_loop (Line text)).
    + injection Hg as -> _. exact Hw.
    + pose proof (do_call_invariant (call_of_line text)
                    (generator w, random_state w) Hw) as Hd.
      rewrite <- Hg in Hd. exact Hd.
  - injection Hg as -> _. exact Hw.
Qed.

End LoopFacts.

(** ** Properties of [main] *)

Section MainProperties.

Context {R : RandomSource} {C : Pyperclip}.

(** X6: only "exit" and Ctrl-C end the loop.  When no event left on
    standard input is Ctrl-C or a line that reads "exit", the loop is
    still running after any number of turns, having read one event per
    turn; this includes the turns after the end of input, where [input()]
    raises [EOFError], the error is printed and the loop goes round
    again. *)
Theorem loop_goes_on (turns : nat) (w : Process) :
  forallb (fun e => negb (ends_loop e)) (stdin w) = true ->
  fst (loop turns w) = Continue
  /\ stdin (snd (loop turns w)) = skipn turns (stdin w).
Proof.
  revert w. induction turns as [|turns IH]; intros w Hw; [now split|].
  rewrite loop_S, iteration_control.
  pose proof (iteration_stdin w) as Hin.
  destruct (stdin w) as [|e rest] eqn:E.
  - destruct (IH (snd (iteration w))) as [Hc Hs]; [now rewrite Hin|].
    rewrite Hc, Hs, Hin. split; [reflexivity | apply skipn_nil].
  - cbn [forallb] in Hw. apply andb_true_iff in Hw as [He Hrest].
    apply negb_true_iff in He. rewrite He.
    destruct (IH (snd (iteration w))) as [Hc Hs]; [now rewrite Hin|].
    rewrite Hc, Hs, Hin. split; reflexivity.
Qed.

(** X7: the loop ends at the first Ctrl-C or "exit" line.  When the events
    before it do not end the loop, the loop leaves after reading it,
    whatever the number of turns allowed beyond that; it prints the
    farewell or the interruption message last and reads nothing of what
    follows. *)
Theorem loop_ends_at_first (pre : list stdin_event) :
  forall (turns : nat) (w : Process) (e : stdin_event)
         (post : list stdin_event),
  stdin w = (pre ++ e :: post)%list ->
  forallb (fun e => negb (ends_loop e)) pre = true ->
  ends_loop e = true ->
  (List.length pre < turns)%nat ->
  fst (loop turns w) = Break
  /\ stdin (snd (loop turns w)) = post
  /\ loop turns w = loop (S (List.length pre)) w
  /\ exists out,
       stdout (snd (loop turns w)) = (out ++ [Farewell])%list
       \/ stdout (snd (loop turns w)) = (out ++ [Interrupted])%list.
Proof.
  induction pre as [|a pre IH]; intros turns w e post Hin Hpre He Hturns;
    (destruct turns as [|turns]; [cbn in Hturns; lia|]).
  - rewrite !loop_S.
    assert (Hc : fst (iteration w) = Break)
      by (rewrite iteration_control, Hin; cbn [app]; now rewrite He).
    rewrite Hc. cbn [fst snd].
    rewrite iteration_stdin, Hin.
    repeat split. now apply iteration_break_prints.
  - rewrite (loop_S turns), (loop_S (List.length (a :: pre))).
    cbn [forallb] in Hpre. apply andb_true_iff in Hpre as [Ha Hpre].
    apply negb_true_iff in Ha.
    assert (Hc : fst (iteration w) = Continue)
      by (rewrite iteration_control, Hin; cbn [app]; now rewrite Ha).
    rewrite Hc.
    apply (IH turns (snd (iteration w)) e post); auto.
    + now rewrite iteration_stdin, Hin.
    + cbn [List.length] in Hturns. lia.
Qed.

(** X8: [main] keeps the history invariant.  Whatever is typed and however
    long the loop has run, every pair of the generator's history is a
    subnet text that parses together with the text of one of its hosts. *)
Theorem main_history_invariant (turns : nat) (g : rng_state)
        (cb : clipboard_state) (input : list stdin_event) :
  history_invariant (generator (snd (main turns g cb input))).
Proof.
  unfold main. apply (loop_keeps (fun w => history_invariant (generator w))).
  - exact iteration_history_invariant.
  - constructor.
Qed.

(** X9: the history is what the output shows.  At every point of [main]
    the generator's history is the list of the (text, address) pairs of
    the "Random IP from" lines printed since the last "History cleared."
    line, in the order printed. *)
Theorem main_history_matches_output (turns : nat) (g : rng_state)
        (cb : clipboard_state) (input : list stdin_event) :
  history (generator (snd (main turns g cb input)))
  = generated_since_clear (stdout (snd (main turns g cb input))).
Proof.
  unfold main.
  apply (loop_keeps
           (fun w => history (generator w)
                     = generated_since_clear (stdout w))).
  - exact iteration_history_matches.
  - reflexivity.
Qed.

Lemma loop_calls texts : forall w,
  stdin w = map Line texts ->
  forallb (fun text => negb (ends_loop (Line text))) texts = true ->
  (generator (snd (loop (List.length texts) w)),
   random_state (snd (loop (List.length texts) w)))
  = fold_left (fun st c => do_call c st) (map call_of_line texts)
      (generator w, random_state w).
Proof.
  induction texts as [|text texts IH]; intros w Hin Hok; [reflexivity|].
  cbn [List.length map fold_left forallb] in *.
  apply andb_true_iff in Hok as [Ht Hok]. apply negb_true_iff in Ht.
  rewrite loop_S, iteration_control, Hin, Ht.
  rewrite IH; [|now rewrite iteration_stdin, Hin | exact Hok].
  now rewrite iteration_generator, Hin, Ht.
Qed.

(** X11: [main] runs the session its input spells.  On lines none of which
    reads "exit", after one turn per line the generator and the random
    source are those of the session that makes, in order, the call each
    line stands for: [get_history] for "history", [clear_history] for
    "clear", [generate_random_ip] on the stripped, lower-cased text for
    any other line. *)
Theorem main_runs_session (texts : list string) (g : rng_state)
        (cb : clipboard_state) :
  forallb (fun text => negb (ends_loop (Line text))) texts = true ->
  let w := snd (main (List.length texts) g cb (map Line texts)) in
  (generator w, random_state w) = session (map call_of_line texts) g.
Proof.
  intros Hok. cbv zeta. unfold main, session.
  now rewrite loop_calls.
Qed.

End MainProperties.

Section WorkingClipboard.

Context {R : RandomSource}.

Lemma iteration_clipboard_holding (cb0 : option string)
      (w : Process (C := pyperclip.holding)) :
  clipboard w
  = match last_generated (stdout w) with
    | Some ip => Some ip
    | None => cb0
    end ->
  clipboard (snd (iteration w))
  = match last_generated (stdout (snd (iteration w))) with
    | Some ip => Some ip
    | None => cb0
    end.
Proof.
  intros Hw. turn_cases w;
    repeat (rewrite last_generated_snoc; cbv iota); auto.
  - match goal with
    | |- context [print_history ?h ?v] =>
        destruct (print_history_fields h v) as (_ & _ & -> & _ & ->)
    end.
    cbn [print set_stdin clipboard stdout].
    rewrite last_generated_history.
    now repeat (rewrite last_generated_snoc; cbv iota).
  - unfold copy_to_clipboard in Hcopy. cbn in Hcopy.
    injection Hcopy as <- <-.
    now repeat (rewrite last_generated_snoc; cbv iota).
Qed.

(** X10: with a clipboard that works, the clipboard holds the address
    generated last.  At every point of [main] the clipboard is the address
    of the last "Random IP from" line printed, or what it was at the start
    when no address has been generated; "history", "clear" and texts that
    raise leave it alone. *)
Theorem main_clipboard_holds_last (turns : nat) (g : rng_state)
        (cb : option string) (input : list stdin_event) :
  let w := snd (main (C := pyperclip.holding) turns g cb input) in
  clipboard w
  = match last_generated (stdout w) with
    | Some ip => Some ip
    | None => cb
    end.
Proof.
  cbv zeta. unfold main.
  apply (loop_keeps (C := pyperclip.holding)
           (fun w => clipboard w
                     = match last_generated (stdout w) with
                       | Some ip => Some ip
                       | None => cb
                       end)).
  - exact (iteration_clipboard_holding cb).
  - reflexivity.
Qed.

End WorkingClipboard.

(** * The further properties at concrete inputs *)


Lemma loop_goes_on_witness :
  let w := mkProcess (R := random.counter) (C := pyperclip.missing)
             __init__ 0%nat tt [Line "history"; Line "10.0.0.0/30"] [] in
  fst (loop 5 w) = Continue
  /\ stdin (snd (loop 5 w)) = skipn 5 (stdin w).
Proof.
  cbv zeta.
  apply (loop_goes_on (R := random.counter) (C := pyperclip.missing) 5).
  vm_compute. reflexivity.
Defined.

Lemma loop_ends_at_first_witness :
  let w := mkProcess (R := random.counter) (C := pyperclip.holding)
             __init__ 0%nat None
             [Line "clear"; Line " EXIT "; Line "history"] [] in
  fst (loop 5 w) = Break
  /\ stdin (snd (loop 5 w)) = [Line "history"]
  /\ loop 5 w = loop 2 w
  /\ exists out,
       stdout (snd (loop 5 w)) = (out ++ [Farewell])%list
       \/ stdout (snd (loop 5 w)) = (out ++ [Interrupted])%list.
Proof.
  cbv zeta.
  apply (loop_ends_at_first (R := random.counter) (C := pyperclip.holding)
           [Line "clear"] 5 _ (Line " EXIT ") [Line "history"]).
  - reflexivity.
  - vm_compute. reflexivity.
  - vm_compute. reflexivity.
  - vm_compute. lia.
Defined.

Lemma main_runs_session_witness :
  let w := snd (main (R := random.counter) (C := pyperclip.holding)
                  2 0%nat None [Line "192.168.1.0/24"; Line "History"]) in
  (generator w, random_state w)
  = session (R := random.counter)
      [GenerateRandomIp "192.168.1.0/24"; GetHistory] 0%nat.
Proof.
  apply (main_runs_session (R := random.counter) (C := pyperclip.holding)
           ["192.168.1.0/24"; "History"] 0%nat None).
  vm_compute. reflexivity.
Defined.
